(** * AI-assisted academic search: the query-generation and paper-search pipeline

    Shallow embedding of the two helper functions of [app.py],
    [generate_queries] and [search_papers], together with the parts of the
    Python runtime they rest on: [str] methods, [json.loads], truthiness,
    and the outcome of the two outbound calls (the hosted model and the
    paper-search endpoint), which are inputs of the model. *)

From Stdlib Require Import Ascii String.
From Stdlib Require Import List NArith ZArith Bool Lia DecimalString.
Import ListNotations.
Local Open Scope list_scope.

(* ===================================================================== *)
(** ** Python exceptions and the error monad *)
(* ===================================================================== *)

(** The exceptions the two functions can let escape.  [app.py] defines no
    exception class of its own; these are the classes of the interpreter
    and of the [requests] library. *)
Inductive exn : Type :=
| IndexError                     (* list index out of range *)
| JSONDecodeError                (* json.loads / Response.json on invalid text *)
| AttributeError                 (* .get on a value that is not a dict *)
| TypeError                      (* iteration over a value that is not iterable *)
| Timeout                        (* requests.exceptions.Timeout *)
| ConnectionError                (* requests.exceptions.ConnectionError *)
| HTTPError (status : Z)         (* Response.raise_for_status *)
| ModelError (msg : string).     (* anything model.generate_content raises *)

Inductive result (A : Type) : Type :=
| Ok (a : A)
| Raise (e : exn).
Arguments Ok {A} a.
Arguments Raise {A} e.

Definition bind {A B : Type} (m : result A) (k : A -> result B) : result B :=
  match m with
  | Ok a => k a
  | Raise e => Raise e
  end.

Notation "x <- m ;; k" := (bind m (fun x => k))
  (at level 61, m at next level, right associativity).

(* ===================================================================== *)
(** ** Python text *)
(* ===================================================================== *)

Module Text.

(** A Python [str] is a sequence of Unicode code points. *)
Definition char : Type := N.
Definition str : Type := list char.
Bind Scope N_scope with char.

(** Literals: every character of a Rocq string is read as its code point. *)
Definition py (s : string) : str := map N_of_ascii (list_ascii_of_string s).

Definition nl : str := [10%N].            (* "\n" *)
Definition dquote : str := [34%N].        (* the double-quote character *)
Definition quoted (s : string) : str := dquote ++ py s ++ dquote.

Definition char_in (lo hi c : char) : bool := ((lo <=? c) && (c <=? hi))%N.

(** [str.isspace] on one code point: the characters [str.strip()] removes. *)
Definition isspace (c : char) : bool :=
  (char_in 9 13 c || char_in 28 32 c || (c =? 133) || (c =? 160)
   || (c =? 5760) || char_in 8192 8202 c || (c =? 8232) || (c =? 8233)
   || (c =? 8239) || (c =? 8287) || (c =? 12288))%N.

Fixpoint lstrip (s : str) : str :=
  match s with
  | [] => []
  | c :: r => if isspace c then lstrip r else s
  end.

Definition rstrip (s : str) : str := rev (lstrip (rev s)).

(** [s.strip()] *)
Definition strip (s : str) : str := rstrip (lstrip s).

(** [s.startswith(p)] *)
Fixpoint startswith (s p : str) : bool :=
  match p, s with
  | [], _ => true
  | _ :: _, [] => false
  | a :: p', b :: s' => (a =? b)%N && startswith s' p'
  end.

(** [s.endswith(p)] *)
Definition endswith (s p : str) : bool := startswith (rev s) (rev p).

(** Leftmost occurrence of the non-empty separator [sep] in [s]: the text
    before it and the text after it. *)
Fixpoint str_partition (sep s : str) : option (str * str) :=
  if startswith s sep then Some ([], skipn (length sep) s)
  else match s with
       | [] => None
       | c :: r =>
           match str_partition sep r with
           | Some (before, after) => Some (c :: before, after)
           | None => None
           end
       end.

(** [s.split(sep, 1)]: at most one split, at the leftmost occurrence. *)
Definition split1 (s sep : str) : list str :=
  match str_partition sep s with
  | Some (before, after) => [before; after]
  | None => [s]
  end.

(** [s.rsplit(sep, 1)]: at most one split, at the rightmost occurrence. *)
Definition rsplit1 (s sep : str) : list str :=
  match str_partition (rev sep) (rev s) with
  | Some (after_r, before_r) => [rev before_r; rev after_r]
  | None => [s]
  end.

(** [l[i]] on a list, for [i >= 0]. *)
Definition getitem {A : Type} (l : list A) (i : nat) : result A :=
  match nth_error l i with
  | Some x => Ok x
  | None => Raise IndexError
  end.

Fixpoint str_eqb (a b : str) : bool :=
  match a, b with
  | [], [] => true
  | x :: a', y :: b' => (x =? y)%N && str_eqb a' b'
  | _, _ => false
  end.

End Text.
Import Text.

(* ===================================================================== *)
(** ** JSON values as Python objects *)
(* ===================================================================== *)

Module Json.

(** A Python [float] read from a JSON literal.  The decimal literal is kept
    exactly ([mant * 10 ^ exp10]); of the rounding to a binary double only
    what truthiness needs is modelled, see [float_nonzero]. *)
Inductive pyfloat : Type :=
| Fdec (mant : Z) (exp10 : Z)
| Fnan
| Finf
| Fneginf.

(** What [json.loads] returns: [None], [bool], [int], [float], [str],
    [list], and [dict] with [str] keys in insertion order. *)
#[warnings="-register-all"] Inductive json : Type :=
| JNull
| JBool (b : bool)
| JInt (z : Z)
| JFloat (f : pyfloat)
| JStr (s : str)
| JArr (items : list json)
| JObj (members : list (str * json)).

Definition dict : Type := list (str * json).

(** [d.get(k)] on the association list of a [dict]; keys are unique. *)
Fixpoint dict_get (d : dict) (k : str) : option json :=
  match d with
  | [] => None
  | (k', v) :: d' => if str_eqb k' k then Some v else dict_get d' k
  end.

(** [d[k] = v]: an existing key keeps its position and takes the new value,
    a new key goes to the end. *)
Fixpoint dict_set (d : dict) (k : str) (v : json) : dict :=
  match d with
  | [] => [(k, v)]
  | (k', v') :: d' =>
      if str_eqb k' k then (k', v) :: d' else (k', v') :: dict_set d' k v
  end.

(** A literal that is not zero as a double: the nearest double to a
    non-zero decimal is [0.0] exactly when its magnitude is at most
    [2 ^ -1075] (half the least subnormal; the tie rounds to even). *)
Definition float_nonzero (f : pyfloat) : bool :=
  match f with
  | Fdec m e =>
      if (m =? 0)%Z then false
      else if (0 <=? e)%Z then true
      else (10 ^ (- e) <? Z.abs m * 2 ^ 1075)%Z
  | Fnan | Finf | Fneginf => true
  end.

(** [bool(v)]: Python truthiness. *)
Definition truthy (v : json) : bool :=
  match v with
  | JNull => false
  | JBool b => b
  | JInt z => negb (z =? 0)%Z
  | JFloat f => float_nonzero f
  | JStr s => match s with [] => false | _ :: _ => true end
  | JArr l => match l with [] => false | _ :: _ => true end
  | JObj d => match d with [] => false | _ :: _ => true end
  end.

(** *** Lexer of [json.loads]

    One pass over the text, one character at a time. *)

Inductive token : Type :=
| TLBrace | TRBrace | TLBrack | TRBrack | TColon | TComma
| TString (s : str)
| TAtom (lexeme : str).       (* a number, true, false, null, NaN, Infinity *)

Inductive lexmode : Type :=
| LTop                                   (* between tokens *)
| LAtom (acc : str)                      (* in a number or a word; reversed *)
| LStr (acc : str) (hi : bool)           (* in a string; decoded text reversed;
                                            [hi]: its last character is a high
                                            surrogate written as an escape *)
| LEsc (acc : str) (hi : bool)           (* after a backslash *)
| LHex (acc : str) (hi : bool) (ds : list N).  (* after \u, digits so far *)

Definition is_json_ws (c : char) : bool :=
  ((c =? 32) || (c =? 9) || (c =? 10) || (c =? 13))%N.

Definition is_digit (c : char) : bool := char_in 48 57 c.

Definition is_atom_char (c : char) : bool :=
  (is_digit c || char_in 65 90 c || char_in 97 122 c
   || (c =? 45) || (c =? 43) || (c =? 46))%N.

Definition hex_value (c : char) : option N :=
  if is_digit c then Some (c - 48)%N
  else if char_in 97 102 c then Some (c - 87)%N
  else if char_in 65 70 c then Some (c - 55)%N
  else None.

(** The character an escape [\c] stands for, [\u] apart. *)
Definition simple_escape (c : char) : option char :=
  (if (c =? 34) then Some 34            (* \ then a double quote *)
   else if (c =? 92) then Some 92       (* \ then \ *)
   else if (c =? 47) then Some 47       (* \/ *)
   else if (c =? 98) then Some 8        (* \b *)
   else if (c =? 102) then Some 12      (* \f *)
   else if (c =? 110) then Some 10      (* \n *)
   else if (c =? 114) then Some 13      (* \r *)
   else if (c =? 116) then Some 9       (* \t *)
   else None)%N.

Definition is_high_surrogate (c : char) : bool := char_in 55296 56319 c.
Definition is_low_surrogate (c : char) : bool := char_in 56320 57343 c.

(** End of a [\uXXXX] escape of value [v]: a low surrogate right after an
    escaped high surrogate joins it into one code point. *)
Definition finish_u (acc : str) (hi : bool) (v : char) : lexmode :=
  match acc with
  | h :: acc' =>
      if hi && is_low_surrogate v
      then LStr ((65536 + (N.lor (N.shiftl (h - 55296) 10) (v - 56320)))%N :: acc')
                false
      else LStr (v :: acc) (is_high_surrogate v)
  | [] => LStr [v] (is_high_surrogate v)
  end.

Definition top_step (c : char) : option (lexmode * list token) :=
  (if is_json_ws c then Some (LTop, [])
   else if (c =? 34) then Some (LStr [] false, [])
   else if (c =? 123) then Some (LTop, [TLBrace])
   else if (c =? 125) then Some (LTop, [TRBrace])
   else if (c =? 91) then Some (LTop, [TLBrack])
   else if (c =? 93) then Some (LTop, [TRBrack])
   else if (c =? 58) then Some (LTop, [TColon])
   else if (c =? 44) then Some (LTop, [TComma])
   else if is_atom_char c then Some (LAtom [c], [])
   else None)%N.

Definition lex_step (m : lexmode) (c : char) : option (lexmode * list token) :=
  match m with
  | LTop => top_step c
  | LAtom acc =>
      if is_atom_char c then Some (LAtom (c :: acc), [])
      else match top_step c with
           | Some (m', ts) => Some (m', TAtom (rev acc) :: ts)
           | None => None
           end
  | LStr acc hi =>
      if (c =? 34)%N then Some (LTop, [TString (rev acc)])
      else if (c =? 92)%N then Some (LEsc acc hi, [])
      else if (c <? 32)%N then None                 (* control character *)
      else Some (LStr (c :: acc) false, [])
  | LEsc acc hi =>
      if (c =? 117)%N then Some (LHex acc hi [], [])
      else match simple_escape c with
           | Some d => Some (LStr (d :: acc) false, [])
           | None => None
           end
  | LHex acc hi ds =>
      match hex_value c with
      | None => None
      | Some d =>
          let ds' := ds ++ [d] in
          if (length ds' =? 4)%nat
          then Some (finish_u acc hi (fold_left (fun a x => (16 * a + x)%N) ds' 0%N), [])
          else Some (LHex acc hi ds', [])
      end
  end.

Fixpoint lex (m : lexmode) (s : str) : option (list token) :=
  match s with
  | [] =>
      match m with
      | LTop => Some []
      | LAtom acc => Some [TAtom (rev acc)]
      | _ => None                                   (* unterminated string *)
      end
  | c :: r =>
      match lex_step m c with
      | None => None
      | Some (m', ts) =>
          match lex m' r with
          | Some rest => Some (ts ++ rest)
          | None => None
          end
      end
  end.

(** *** Numbers and literal names *)

(** The longest run of decimal digits at the head of [s], as digit values. *)
Fixpoint span_digits (s : str) : list N * str :=
  match s with
  | c :: r =>
      if is_digit c
      then let (ds, rest) := span_digits r in ((c - 48)%N :: ds, rest)
      else ([], s)
  | [] => ([], [])
  end.

Definition decimal (ds : list N) : Z :=
  Z.of_N (fold_left (fun a x => (10 * a + x)%N) ds 0%N).

(** Integer part of a number: [0] or a run of digits that starts with a
    non-zero digit. *)
Definition int_part_ok (ds : list N) : bool :=
  match ds with
  | [] => false
  | [_] => true
  | d :: _ => negb (d =? 0)%N
  end.

(** Optional exponent [e], [E] with an optional sign and at least one digit;
    nothing may follow it. *)
Definition exponent (s : str) : option (option Z) :=
  match s with
  | [] => Some None
  | c :: r =>
      if ((c =? 101) || (c =? 69))%N then
        let (neg, r') :=
          match r with
          | x :: r0 => if (x =? 45)%N then (true, r0)
                       else if (x =? 43)%N then (false, r0) else (false, r)
          | [] => (false, r)
          end in
        match span_digits r' with
        | ((_ :: _) as ds, []) =>
            Some (Some (if neg then (- decimal ds)%Z else decimal ds))
        | _ => None
        end
      else None
  end.

(** A number literal: integer part, optional fraction, optional exponent.
    Without fraction and exponent it is an [int], otherwise a [float]. *)
Definition number_value (s : str) : option json :=
  let (neg, s1) :=
    match s with
    | c :: r => if (c =? 45)%N then (true, r) else (false, s)
    | [] => (false, s)
    end in
  let sign (z : Z) := if neg then (- z)%Z else z in
  let (ip, s2) := span_digits s1 in
  if negb (int_part_ok ip) then None
  else
    let frac : option (list N * str) :=
      match s2 with
      | c :: r =>
          if (c =? 46)%N then
            match span_digits r with
            | ((_ :: _) as fs, s3) => Some (fs, s3)
            | ([], _) => None
            end
          else Some ([], s2)
      | [] => Some ([], s2)
      end in
    match frac with
    | None => None
    | Some (fs, s3) =>
        match exponent s3 with
        | None => None
        | Some None =>
            match fs with
            | [] => Some (JInt (sign (decimal ip)))
            | _ :: _ =>
                Some (JFloat (Fdec (sign (decimal (ip ++ fs)))
                                   (- Z.of_nat (length fs))))
            end
        | Some (Some e) =>
            Some (JFloat (Fdec (sign (decimal (ip ++ fs)))
                               (e - Z.of_nat (length fs))))
        end
    end.

Definition atom_value (s : str) : option json :=
  if str_eqb s (py "true") then Some (JBool true)
  else if str_eqb s (py "false") then Some (JBool false)
  else if str_eqb s (py "null") then Some JNull
  else if str_eqb s (py "NaN") then Some (JFloat Fnan)
  else if str_eqb s (py "Infinity") then Some (JFloat Finf)
  else if str_eqb s (py "-Infinity") then Some (JFloat Fneginf)
  else number_value s.

(** *** Parser of [json.loads]

    A pushdown automaton over the tokens; the stack holds the containers
    that are still open. *)

Inductive frame : Type :=
| FArr (acc : list json)              (* open array, items so far reversed *)
| FObj (acc : dict) (key : str).      (* open object, key awaiting its value *)

Inductive pstate : Type :=
| PValue (stk : list frame)                     (* a value must follow *)
| PArr0 (stk : list frame)                      (* after [: ] or a value *)
| PArrNext (acc : list json) (stk : list frame) (* after an item: , or ] *)
| PObj0 (stk : list frame)                      (* after {: } or a key *)
| PKey (acc : dict) (stk : list frame)          (* after , in an object *)
| PColon (acc : dict) (key : str) (stk : list frame)
| PObjNext (acc : dict) (stk : list frame)      (* after a member: , or } *)
| PDone (v : json).                             (* the document is complete *)

(** The value [v] is complete: hand it to the innermost open container. *)
Definition reduce (v : json) (stk : list frame) : pstate :=
  match stk with
  | [] => PDone v
  | FArr acc :: stk' => PArrNext (v :: acc) stk'
  | FObj acc k :: stk' => PObjNext (dict_set acc k v) stk'
  end.

Definition value_tok (stk : list frame) (t : token) : option pstate :=
  match t with
  | TString s => Some (reduce (JStr s) stk)
  | TAtom a =>
      match atom_value a with
      | Some v => Some (reduce v stk)
      | None => None
      end
  | TLBrack => Some (PArr0 stk)
  | TLBrace => Some (PObj0 stk)
  | _ => None
  end.

Definition parse_step (st : pstate) (t : token) : option pstate :=
  match st, t with
  | PValue stk, _ => value_tok stk t
  | PArr0 stk, TRBrack => Some (reduce (JArr []) stk)
  | PArr0 stk, _ => value_tok (FArr [] :: stk) t
  | PArrNext acc stk, TComma => Some (PValue (FArr acc :: stk))
  | PArrNext acc stk, TRBrack => Some (reduce (JArr (rev acc)) stk)
  | PObj0 stk, TRBrace => Some (reduce (JObj []) stk)
  | PObj0 stk, TString k => Some (PColon [] k stk)
  | PKey acc stk, TString k => Some (PColon acc k stk)
  | PColon acc k stk, TColon => Some (PValue (FObj acc k :: stk))
  | PObjNext acc stk, TComma => Some (PKey acc stk)
  | PObjNext acc stk, TRBrace => Some (reduce (JObj acc) stk)
  | _, _ => None
  end.

Fixpoint parse (st : pstate) (ts : list token) : option json :=
  match ts with
  | [] => match st with PDone v => Some v | _ => None end
  | t :: ts' =>
      match parse_step st t with
      | Some st' => parse st' ts'
      | None => None
      end
  end.

(** [json.loads(s)]: the decoded value, or [JSONDecodeError].  Limits of
    the interpreter (nesting depth, length of an integer literal) are not
    modelled: the automaton accepts documents of any depth and size. *)
Definition json_loads (s : str) : result json :=
  match lex LTop s with
  | None => Raise JSONDecodeError
  | Some ts =>
      match parse (PValue []) ts with
      | Some v => Ok v
      | None => Raise JSONDecodeError
      end
  end.

End Json.
Import Json.

(* ===================================================================== *)
(** ** The application: [app.py] *)
(* ===================================================================== *)

Module App.

(** *** The outside world *)

(** The hosted model: [model.generate_content(prompt)] followed by
    [response.text] either yields the text of the completion or raises. *)
Definition language_model : Type := str -> result str.

(** One call of [requests.get]. *)
Record request : Type := mk_request {
  req_url : str;
  req_params : dict;
  req_headers : list (str * str);
  req_timeout : Z
}.

Record response : Type := mk_response {
  status_code : Z;
  body : str
}.

(** The paper-search service seen from the client: what [requests.get]
    does for a request, given the requests issued before it (so that a
    second attempt may fare differently from the first).  [Raise Timeout]
    is the call giving up after [req_timeout]. *)
Definition network : Type := list request -> request -> result response.

(** [st.secrets] *)
Definition secrets : Type := list (str * str).

Fixpoint secret (sec : secrets) (k : str) : option str :=
  match sec with
  | [] => None
  | (k', v) :: sec' => if str_eqb k' k then Some v else secret sec' k
  end.

(** *** Configuration *)

Definition SEMANTIC_SCHOLAR_URL : str :=
  py "https://api.semanticscholar.org/graph/v1/paper/search".
Definition PAPER_FIELDS : str :=
  py "title,abstract,year,authors,venue,url,citationCount".

Definition fence : str := py "```".

(** *** [generate_queries] *)

Definition prompt (topic : str) : str :=
  py "Given a research topic, generate 3 academic search query variants." ++ nl
  ++ py "Return ONLY valid JSON in this exact format:" ++ nl
  ++ py "{" ++ nl
  ++ py "  " ++ quoted "broad" ++ py ": "
     ++ quoted "general academic query covering the topic widely" ++ py "," ++ nl
  ++ py "  " ++ quoted "focused" ++ py ": "
     ++ quoted "specific query targeting core concepts" ++ py "," ++ nl
  ++ py "  " ++ quoted "method" ++ py ": "
     ++ quoted "query emphasizing methodologies and techniques" ++ nl
  ++ py "}" ++ nl ++ nl
  ++ py "Topic: " ++ topic.

(** Lines 200-206 up to the argument of [json.loads]: the text handed to
    the parser for the raw completion [raw]. *)
Definition parser_input (raw : str) : result str :=
  let text := strip raw in
  (* Strip markdown code fences if present *)
  text <- (if startswith text fence
           then getitem (split1 text nl) 1
           else Ok text) ;;
  text <- (if endswith text fence
           then getitem (rsplit1 text fence) 0
           else Ok text) ;;
  Ok (strip text).

Definition generate_queries (model : language_model) (topic : str)
  : result json :=
  raw <- model (prompt topic) ;;
  text <- parser_input raw ;;
  json_loads text.

(** *** [search_papers] *)

(** [resp.raise_for_status()] *)
Definition raise_for_status (resp : response) : result unit :=
  if ((400 <=? status_code resp) && (status_code resp <? 600))%Z
  then Raise (HTTPError (status_code resp))
  else Ok tt.

(** [resp.json()] *)
Definition response_json (resp : response) : result json :=
  json_loads (body resp).

(** [v.get(k, default)]: only a [dict] has the method. *)
Definition get (v : json) (k : str) (default : json) : result json :=
  match v with
  | JObj d =>
      Ok (match dict_get d k with Some x => x | None => default end)
  | _ => Raise AttributeError
  end.

(** The values a [for] loop draws from [v]: the items of a list, the keys
    of a dict, the characters of a string. *)
Definition iterate (v : json) : result (list json) :=
  match v with
  | JArr l => Ok l
  | JObj d => Ok (map (fun kv => JStr (fst kv)) d)
  | JStr s => Ok (map (fun c => JStr [c]) s)
  | JNull | JBool _ | JInt _ | JFloat _ => Raise TypeError
  end.

(** [a and b]: [b] is evaluated only when [a] is truthy. *)
Definition py_and (a b : result json) : result json :=
  x <- a ;; if truthy x then b else Ok x.

(** The condition of the [if] at lines 223-230. *)
Definition has_required_fields (p : json) : result bool :=
  v <- py_and (get p (py "paperId") JNull)
      (py_and (get p (py "title") JNull)
      (py_and (get p (py "abstract") JNull)
      (py_and (get p (py "year") JNull)
      (py_and (get p (py "authors") JNull)
              (get p (py "url") JNull))))) ;;
  Ok (truthy v).

(** The loop at lines 222-231, [filtered] being the list built so far. *)
Fixpoint keep_papers (data filtered : list json) : result (list json) :=
  match data with
  | [] => Ok filtered
  | p :: rest =>
      c <- has_required_fields p ;;
      keep_papers rest (if c then filtered ++ [p] else filtered)
  end.

Definition search_request (sec : secrets) (query : str) : request :=
  let params :=
    [(py "query", JStr query); (py "limit", JInt 10);
     (py "fields", JStr PAPER_FIELDS)] in
  let headers :=
    match secret sec (py "SEMANTIC_SCHOLAR_API_KEY") with
    | Some key => [(py "x-api-key", key)]
    | None => []
    end in
  mk_request SEMANTIC_SCHOLAR_URL params headers 15.

(** [search_papers(query)].  [log] lists the requests already sent; the
    function returns its outcome and the log after it. *)
Definition search_papers (sec : secrets) (net : network) (query : str)
    (log : list request) : result (list json) * list request :=
  let req := search_request sec query in
  (resp <- net log req ;;
   _ <- raise_for_status resp ;;
   parsed <- response_json resp ;;
   data <- get parsed (py "data") (JArr []) ;;
   items <- iterate data ;;
   keep_papers items [],
   log ++ [req]).

End App.
Import App.

(* ===================================================================== *)
(** ** The vocabulary of the specification *)
(* ===================================================================== *)

Module Spec.

(** A value that is absent in all but name: null, or an empty string,
    list or mapping. *)
Definition is_empty (v : json) : bool :=
  match v with
  | JNull | JStr [] | JArr [] | JObj [] => true
  | _ => false
  end.


(** QueryVariantSet: a mapping with exactly the keys broad, focused and
    method, each bound to a non-empty string. *)
Definition variant_keys : list str := [py "broad"; py "focused"; py "method"].


Definition missing_key (v : json) : bool :=
  match v with
  | JObj d =>
      existsb (fun k => match dict_get d k with
                        | Some _ => false
                        | None => true
                        end) variant_keys
  | _ => true
  end.

(** The two generation errors of the error taxonomy: the failure of the
    model call (GenerationError) and the rejection of its text by the JSON
    parser (MalformedResponseError). *)
Definition is_generation_error (e : exn) : bool :=
  match e with
  | ModelError _ | JSONDecodeError => true
  | _ => false
  end.



(** The completeness predicate: identifier, title, abstract, year, authors
    and URL are all present and non-empty. *)
Definition required_fields : list str :=
  [py "paperId"; py "title"; py "abstract"; py "year"; py "authors"; py "url"].

Definition present_nonempty (d : dict) (k : str) : bool :=
  match dict_get d k with
  | Some v => negb (is_empty v)
  | None => false
  end.

Definition complete (p : json) : bool :=
  match p with
  | JObj d => forallb (present_nonempty d) required_fields
  | _ => false
  end.

(** What [p.get(k)] gives on the mapping [d]: the value, or [None]. *)
Definition field (d : dict) (k : str) : json :=
  match dict_get d k with
  | Some x => x
  | None => JNull
  end.

(** [l] is [data] with some records removed: same records, same order. *)
Inductive subsequence {A : Type} : list A -> list A -> Prop :=
| sub_nil : subsequence [] []
| sub_keep x l data : subsequence l data -> subsequence (x :: l) (x :: data)
| sub_drop x l data : subsequence l data -> subsequence l (x :: data).

(** [s] has an occurrence of [p]. *)
Definition contains (s p : str) : Prop := exists a b, s = a ++ p ++ b.

(** The readings of two sentences that the code does not bear out. *)




End Spec.
Import Spec.

(* ===================================================================== *)
(** ** Scenarios *)
(* ===================================================================== *)

Module Scenario.

Definition member (k v : string) : str := quoted k ++ py ":" ++ quoted v.

(** Scenario A: the completion is a fenced JSON block. *)
Definition fenced_completion : str :=
  py "```json" ++ nl
  ++ py "{" ++ member "broad" "machine learning" ++ py ","
  ++ member "focused" "transformer interpretability" ++ py ","
  ++ member "method" "attention visualization techniques" ++ py "}" ++ nl
  ++ py "```".

(** Its middle line, the JSON text itself. *)
Definition json_line : str :=
  py "{" ++ member "broad" "machine learning" ++ py ","
  ++ member "focused" "transformer interpretability" ++ py ","
  ++ member "method" "attention visualization techniques" ++ py "}".

Definition variants : json :=
  JObj [(py "broad", JStr (py "machine learning"));
        (py "focused", JStr (py "transformer interpretability"));
        (py "method", JStr (py "attention visualization techniques"))].

(** Scenario B *)
Definition prose_completion : str := py "not json at all".

(** A JSON object with one of the three keys only. *)
Definition partial_completion : str := py "{" ++ member "broad" "x" ++ py "}".

Definition empty_object_completion : str := py "{}".

Definition lone_fence_completion : str := py " ```" ++ nl.


Definition answers (text : str) : language_model := fun _ => Ok text.

Definition topic : str := py "ai systems people can trust".

(** Scenario C: one complete record and one with two fields only. *)
Definition paper1 : json :=
  JObj [(py "paperId", JStr (py "1")); (py "title", JStr (py "T"));
        (py "abstract", JStr (py "A")); (py "year", JInt 2023);
        (py "authors", JArr [JObj [(py "name", JStr (py "X"))]]);
        (py "url", JStr (py "u"))].

Definition paper2 : json :=
  JObj [(py "paperId", JStr (py "2")); (py "title", JStr (py "T2"))].

Definition two_papers_body : str :=
  py "{" ++ quoted "data" ++ py ": [{"
  ++ member "paperId" "1" ++ py ", " ++ member "title" "T" ++ py ", "
  ++ member "abstract" "A" ++ py ", " ++ quoted "year" ++ py ": 2023, "
  ++ quoted "authors" ++ py ": [{" ++ member "name" "X" ++ py "}], "
  ++ member "url" "u" ++ py "}, {"
  ++ member "paperId" "2" ++ py ", " ++ member "title" "T2" ++ py "}]}".

(** Scenario D and its variant without the key. *)
Definition empty_data_body : str := py "{" ++ quoted "data" ++ py ": []}".
Definition no_data_body : str := py "{" ++ quoted "total" ++ py ": 0}".

Definition replies (status : Z) (text : str) : network :=
  fun _ _ => Ok (mk_response status text).

Definition fails_with (e : exn) : network := fun _ _ => Raise e.

(** Records that differ from [paper1] in one field. *)
Definition with_field (p : json) (k : string) (v : json) : json :=
  match p with
  | JObj d => JObj (dict_set d (py k) v)
  | _ => p
  end.

Definition year_zero : json := with_field paper1 "year" (JInt 0).
Definition no_authors : json := with_field paper1 "authors" (JArr []).
Definition nameless_authors : json :=
  with_field paper1 "authors" (JArr [JObj []; JObj [(py "id", JInt 7)]]).

End Scenario.

(* ===================================================================== *)
(** ** Rendering a paper: [render_paper_card] *)
(* ===================================================================== *)

Module Render.

(** What ends a computation that nothing catches: besides the
    exceptions above, the [KeyError] of [d[k]] on an absent key. *)
Inductive failure : Type :=
| KeyError (key : str)
| Uncaught (e : exn).

Inductive outcome (A : Type) : Type :=
| Done (a : A)
| Fail (f : failure).
Arguments Done {A} a.
Arguments Fail {A} f.

Definition and_then {A B : Type} (m : outcome A) (k : A -> outcome B)
  : outcome B :=
  match m with
  | Done a => k a
  | Fail f => Fail f
  end.

Notation "x <~ m ;; k" := (and_then m (fun x => k))
  (at level 61, m at next level, right associativity).

Definition lift {A : Type} (r : result A) : outcome A :=
  match r with
  | Ok a => Done a
  | Raise e => Fail (Uncaught e)
  end.

(** What the interpreter contributes and the model leaves open: the text
    of [repr] for floats, lists and mappings, the message of an
    exception, and the error of [d[:300]] on a mapping (a [TypeError] or a
    [KeyError] of the slice, depending on the version). *)
Record runtime : Type := mk_runtime {
  py_repr : json -> str;
  exn_text : exn -> str;
  dict_slice : failure
}.

Definition decimal_text (z : Z) : str :=
  py (DecimalString.NilZero.string_of_int (Z.to_int z)).

(** [str(v)], which is what [{v}] in an f-string inserts. *)
Definition py_str (rt : runtime) (v : json) : str :=
  match v with
  | JStr s => s
  | JNull => py "None"
  | JBool true => py "True"
  | JBool false => py "False"
  | JInt z => decimal_text z
  | JFloat _ | JArr _ | JObj _ => py_repr rt v
  end.

(** [v[k]] for a string [k]. *)
Definition subscript (v : json) (k : str) : outcome json :=
  match v with
  | JObj d =>
      match dict_get d k with
      | Some x => Done x
      | None => Fail (KeyError k)
      end
  | _ => Fail (Uncaught TypeError)
  end.

(** [len(v)] *)
Definition py_len (v : json) : outcome nat :=
  match v with
  | JStr s => Done (length s)
  | JArr l => Done (length l)
  | JObj d => Done (length d)
  | JNull | JBool _ | JInt _ | JFloat _ => Fail (Uncaught TypeError)
  end.

(** [a["name"] for a in authors], drawn to the end before anything is
    joined. *)
Fixpoint author_names (entries : list json) : outcome (list json) :=
  match entries with
  | [] => Done []
  | a :: rest =>
      n <~ subscript a (py "name") ;;
      ns <~ author_names rest ;;
      Done (n :: ns)
  end.

(** [sep.join(parts)]: every part has to be a [str]. *)
Fixpoint join (sep : str) (parts : list json) : outcome str :=
  match parts with
  | [] => Done []
  | JStr s :: rest =>
      match rest with
      | [] => Done s
      | _ :: _ => t <~ join sep rest ;; Done (s ++ sep ++ t)
      end
  | _ :: _ => Fail (Uncaught TypeError)
  end.

(** Lines 241-243: the abstract as shown. *)
Definition shown_abstract (rt : runtime) (abstract : json) : outcome json :=
  n <~ py_len abstract ;;
  if (300 <? n)%nat then
    match abstract with
    | JStr s => Done (JStr (firstn 300 s ++ py "..."))
    | JObj _ => Fail (dict_slice rt)
    | _ => Fail (Uncaught TypeError)
    end
  else Done abstract.

Definition span_open (cls : string) : str :=
  py "<span class=" ++ quoted cls ++ py ">".

Definition div_open (cls : string) : str :=
  py "<div class=" ++ quoted cls ++ py ">".

(** Lines 245-250 *)
Definition badges (rt : runtime) (paper year : json) : outcome str :=
  let badges_html :=
    span_open "badge badge-year" ++ py_str rt year ++ py "</span>" in
  venue <~ lift (get paper (py "venue") JNull) ;;
  badges_html <~
    (if truthy venue then
       v <~ subscript paper (py "venue") ;;
       Done (badges_html ++ span_open "badge badge-venue" ++ py_str rt v
             ++ py "</span>")
     else Done badges_html) ;;
  count <~ lift (get paper (py "citationCount") JNull) ;;
  match count with
  | JNull => Done badges_html
  | _ =>
      cite <~ subscript paper (py "citationCount") ;;
      Done (badges_html ++ span_open "badge badge-cite" ++ py_str rt cite
            ++ py " citations</span>")
  end.

(** The card itself, lines 252-259. *)
Definition card_html (url title authors badges_html abstract : str) : str :=
  nl ++ py "    " ++ div_open "paper-card" ++ nl
  ++ py "        " ++ div_open "paper-title"
     ++ py "<a href=" ++ dquote ++ url ++ dquote
     ++ py " target=" ++ quoted "_blank" ++ py ">" ++ title
     ++ py "</a></div>" ++ nl
  ++ py "        " ++ div_open "paper-meta" ++ authors ++ py "</div>" ++ nl
  ++ py "        " ++ div_open "paper-badges" ++ badges_html
     ++ py "</div>" ++ nl
  ++ py "        " ++ div_open "paper-abstract" ++ abstract
     ++ py "</div>" ++ nl
  ++ py "    </div>" ++ nl
  ++ py "    ".

(** [render_paper_card(paper)]: the HTML handed to [st.markdown], or the
    exception that escapes. *)
Definition render_paper_card (rt : runtime) (paper : json) : outcome str :=
  title <~ subscript paper (py "title") ;;
  url <~ subscript paper (py "url") ;;
  entries <~ subscript paper (py "authors") ;;
  entries <~ lift (iterate entries) ;;
  names <~ author_names entries ;;
  authors <~ join (py ", ") names ;;
  year <~ subscript paper (py "year") ;;
  abstract <~ subscript paper (py "abstract") ;;
  abstract <~ shown_abstract rt abstract ;;
  badges_html <~ badges rt paper year ;;
  Done (card_html (py_str rt url) (py_str rt title) authors badges_html
                  (py_str rt abstract)).

End Render.
Import Render.

(* ===================================================================== *)
(** ** One run of the script: the action and the main area *)
(* ===================================================================== *)

Module Script.

(** The services the script talks to. *)
Record services : Type := mk_services {
  model : language_model;
  sec : secrets;
  net : network
}.

(** [st.session_state] once lines 175-180 have run; [None] is [JNull]
    for [queries] and [selected_query]. *)
Record session : Type := mk_session {
  queries : json;
  papers : option (list json);
  selected_query : json
}.

Definition fresh_session : session := mk_session JNull None JNull.

(** What the widgets of the sidebar and the three buttons of the main
    area return in this run. *)
Record widgets : Type := mk_widgets {
  ai_enabled : bool;
  topic : str;
  action_btn : bool;
  variant_btn : str -> bool       (* by the key of the button *)
}.

Inductive place : Type :=
| Page
| Column (idx : nat).

Inductive ui_event : Type :=
| Spinner (text : str)
| Markdown (body : str)
| ErrorBox (text : str)
| WarningBox (text : str)
| Columns (n : nat)
| Button (label key : str).

Record world : Type := mk_world {
  state : session;
  screen : list (place * ui_event);
  sent : list request
}.

Definition show (p : place) (e : ui_event) (w : world) : world :=
  mk_world (state w) (screen w ++ [(p, e)]) (sent w).

Definition set_state (s : session) (w : world) : world :=
  mk_world s (screen w) (sent w).

(** [search_papers(query)] for a query of any type: the value goes into
    [params] as it is. *)
Definition search_request_of (sec : secrets) (query : json) : request :=
  let params :=
    [(py "query", query); (py "limit", JInt 10);
     (py "fields", JStr PAPER_FIELDS)] in
  let headers :=
    match secret sec (py "SEMANTIC_SCHOLAR_API_KEY") with
    | Some key => [(py "x-api-key", key)]
    | None => []
    end in
  mk_request SEMANTIC_SCHOLAR_URL params headers 15.

Definition search_papers_of (sec : secrets) (net : network) (query : json)
    (log : list request) : result (list json) * list request :=
  let req := search_request_of sec query in
  (resp <- net log req ;;
   _ <- raise_for_status resp ;;
   parsed <- response_json resp ;;
   data <- get parsed (py "data") (JArr []) ;;
   items <- iterate data ;;
   keep_papers items [],
   log ++ [req]).

(** The [with st.spinner] block of lines 302-307 and of lines 342-347. *)
Definition search_into_session (rt : runtime) (sv : services) (p : place)
    (query : json) (w : world) : world :=
  let w := show p (Spinner (py "Searching Semantic Scholar...")) w in
  let (r, log) := search_papers_of (sec sv) (net sv) query (sent w) in
  match r with
  | Ok l =>
      mk_world (mk_session (queries (state w)) (Some l)
                           (selected_query (state w)))
               (screen w) log
  | Raise e =>
      let w := show p (ErrorBox (py "Search failed: " ++ exn_text rt e)) w in
      mk_world (mk_session (queries (state w)) None
                           (selected_query (state w)))
               (screen w) log
  end.

(** Lines 290-307 *)
Definition handle_action (rt : runtime) (sv : services) (wd : widgets)
    (w : world) : world :=
  if action_btn wd && truthy (JStr (topic wd)) then
    if ai_enabled wd then
      let w := show Page (Spinner (py "Generating queries with Gemini...")) w in
      match generate_queries (model sv) (topic wd) with
      | Ok q => set_state (mk_session q None JNull) w
      | Raise e =>
          show Page (ErrorBox (py "Failed to generate queries: "
                               ++ exn_text rt e)) w
      end
    else
      let w :=
        set_state (mk_session JNull (papers (state w)) (JStr (topic wd))) w in
      search_into_session rt sv Page (JStr (topic wd)) w
  else w.

Definition variant_meta : list (str * (str * string)) :=
  [(py "broad", (py "Broad", "broad"%string));
   (py "focused", (py "Focused", "focused"%string));
   (py "method", (py "Method", "method"%string))].

Definition query_card (rt : runtime) (css_class : string) (label : str)
    (query_text : json) : str :=
  div_open "query-card"
  ++ py "<div class=" ++ dquote ++ py "query-label " ++ py css_class ++ dquote
     ++ py ">" ++ label ++ py "</div>"
  ++ div_open "query-text" ++ py_str rt query_text ++ py "</div>"
  ++ py "</div>".

(** The loop of lines 330-347, from column [idx] on. *)
Fixpoint variant_columns (rt : runtime) (sv : services) (wd : widgets)
    (idx : nat) (meta : list (str * (str * string))) (w : world)
  : outcome unit * world :=
  match meta with
  | [] => (Done tt, w)
  | (key, (label, css_class)) :: rest =>
      match subscript (queries (state w)) key with
      | Fail f => (Fail f, w)
      | Done query_text =>
          let w :=
            show (Column idx)
                 (Markdown (query_card rt css_class label query_text)) w in
          let w :=
            show (Column idx)
                 (Button (py "Search with " ++ label) (py "btn_" ++ key)) w in
          let w :=
            if variant_btn wd (py "btn_" ++ key) then
              search_into_session rt sv (Column idx) query_text
                (set_state (mk_session (queries (state w)) (papers (state w))
                                       query_text) w)
            else w in
          variant_columns rt sv wd (S idx) rest w
      end
  end.

(** The loop of lines 366-367. *)
Fixpoint paper_cards (rt : runtime) (l : list json) (w : world)
  : outcome unit * world :=
  match l with
  | [] => (Done tt, w)
  | paper :: rest =>
      match render_paper_card rt paper with
      | Fail f => (Fail f, w)
      | Done html => paper_cards rt rest (show Page (Markdown html) w)
      end
  end.

Definition hero : str :=
  div_open "hero" ++ py "<h1>AI-Assisted Academic Search</h1>"
  ++ py "<p>Transform your research ideas into precise academic queries</p>"
  ++ py "</div>".

Definition selected_banner (rt : runtime) (q : json) : str :=
  div_open "selected-query" ++ py "Showing results for: <strong>"
  ++ py_str rt q ++ py "</strong></div>".

Definition results_header (n : nat) : str :=
  div_open "results-header" ++ py "<h3>Papers</h3>"
  ++ span_open "results-count" ++ decimal_text (Z.of_nat n) ++ py " results"
  ++ py "</span>" ++ py "</div>".

(** Lines 313-367.  A failure stops the run where it occurs; what the
    session and the screen hold by then stays. *)
Definition main_area (rt : runtime) (sv : services) (wd : widgets)
    (w : world) : outcome unit * world :=
  let w := show Page (Markdown hero) w in
  let (r, w) :=
    if truthy (queries (state w)) then
      let w := show Page (Markdown []) w in
      let w := show Page (Columns 3) w in
      variant_columns rt sv wd 0 variant_meta w
    else (Done tt, w) in
  match r with
  | Fail f => (Fail f, w)
  | Done _ =>
      let w :=
        if truthy (selected_query (state w))
        then show Page (Markdown (selected_banner rt (selected_query (state w)))) w
        else w in
      match papers (state w) with
      | None => (Done tt, w)
      | Some l =>
          if (length l =? 0)%nat then
            (Done tt,
             show Page (WarningBox (py "No papers matched the required fields. Try another query.")) w)
          else
            paper_cards rt l (show Page (Markdown (results_header (length l))) w)
      end
  end.

(** One run: the action, then the main area. *)
Definition run (rt : runtime) (sv : services) (wd : widgets) (w : world)
  : outcome unit * world :=
  main_area rt sv wd (handle_action rt sv wd w).

End Script.
Import Script.

(* ===================================================================== *)
(** ** Shapes of values and further cases *)
(* ===================================================================== *)

Module Shape.

Definition is_mapping (v : json) : bool :=
  match v with
  | JObj _ => true
  | _ => false
  end.

(** [None], a [bool], an [int] or a [float]: what a [for] cannot draw from. *)
Definition is_scalar (v : json) : bool :=
  match v with
  | JNull | JBool _ | JInt _ | JFloat _ => true
  | _ => false
  end.

(** All six required fields of a mapping are truthy. *)
Definition all_fields_truthy (p : json) : bool :=
  match p with
  | JObj d => forallb (fun k => truthy (field d k)) required_fields
  | _ => false
  end.

(** An author entry that is a mapping with a [name]. *)
Definition has_name (a : json) : bool :=
  match a with
  | JObj d =>
      match dict_get d (py "name") with
      | Some _ => true
      | None => false
      end
  | _ => false
  end.

(** An author entry whose [name] is a string. *)
Definition name_of (a : json) : option str :=
  match a with
  | JObj d =>
      match dict_get d (py "name") with
      | Some (JStr s) => Some s
      | _ => None
      end
  | _ => None
  end.

(** [sep.join] on strings. *)
Fixpoint intercalate (sep : str) (parts : list str) : str :=
  match parts with
  | [] => []
  | [s] => s
  | s :: rest => s ++ sep ++ intercalate sep rest
  end.

(** The keys of [variant_meta] whose button is pressed, in column order. *)
Definition pressed (wd : widgets) : list str :=
  filter (fun k => variant_btn wd (py "btn_" ++ k)) variant_keys.

End Shape.
Import Shape.

Module Cases.

Definition rt0 : runtime :=
  mk_runtime (fun _ => py "<repr>") (fun _ => py "<exception>")
             (Uncaught TypeError).

Definition no_buttons : str -> bool := fun _ => false.

Definition only_button (key : string) : str -> bool :=
  fun k => str_eqb k (py key).

Definition world0 : world := mk_world fresh_session [] [].

Definition ai_services (completion : str) : services :=
  mk_services (Scenario.answers completion) []
              (Scenario.fails_with ConnectionError).

Definition search_services (status : Z) (text : str) : services :=
  mk_services (fun _ => Raise (ModelError "unavailable")) []
              (Scenario.replies status text).

Definition ask_ai : widgets :=
  mk_widgets true Scenario.topic true no_buttons.

Definition ask_search : widgets :=
  mk_widgets false Scenario.topic true no_buttons.

Definition idle : widgets := mk_widgets true [] true no_buttons.

(** A body whose only record has an author entry without a name. *)
Definition nameless_body : str :=
  py "{" ++ quoted "data" ++ py ": [{"
  ++ Scenario.member "paperId" "1" ++ py ", "
  ++ Scenario.member "title" "T" ++ py ", "
  ++ Scenario.member "abstract" "A" ++ py ", "
  ++ quoted "year" ++ py ": 2023, "
  ++ quoted "authors" ++ py ": [{}], "
  ++ Scenario.member "url" "u" ++ py "}]}".

Definition nameless_paper : json :=
  Scenario.with_field Scenario.paper1 "authors" (JArr [JObj []]).

(** A body whose second record is a number. *)
Definition stray_number_body : str :=
  py "{" ++ quoted "data" ++ py ": [{"
  ++ Scenario.member "paperId" "2" ++ py "}, 7]}".

Definition null_data_body : str := py "{" ++ quoted "data" ++ py ": null}".

Definition open_fence_only : str :=
  py "```json" ++ nl ++ py "[1, 2]".

Definition close_fence_only : str := py "[1, 2]" ++ nl ++ py "```".

Definition fence_on_one_line : str := py "```json [1, 2] ```".

Definition long_abstract : str := repeat 97%N 301.

Definition cited_paper : json :=
  Scenario.with_field (Scenario.with_field Scenario.paper1 "venue" (JStr []))
                      "citationCount" (JInt 0).

Definition session_with (q : json) : world :=
  mk_world (mk_session q None JNull) [] [].

Definition partial_variants : json := JObj [(py "broad", JStr (py "x"))].

End Cases.

(* ===================================================================== *)
(** ** Facts about Python text *)
(* ===================================================================== *)

Section TextFacts.




Lemma lstrip_suffix (s : str) : exists a, s = a ++ lstrip s.
Proof.
  induction s as [|c r [a IH]]; simpl.
  - now exists [].
  - destruct (isspace c).
    + exists (c :: a); simpl; now rewrite <- IH.
    + now exists [].
Qed.




Lemma rstrip_prefix (s : str) : exists b, s = rstrip s ++ b.
Proof.
  unfold rstrip; destruct (lstrip_suffix (rev s)) as [a E].
  exists (rev a); rewrite <- rev_app_distr, <- E; now rewrite rev_involutive.
Qed.



(** [s.strip()] is a slice of [s]. *)
Lemma strip_inside (s : str) : exists a b, s = a ++ strip s ++ b.
Proof.
  destruct (lstrip_suffix s) as [a Ea].
  destruct (rstrip_prefix (lstrip s)) as [b Eb].
  exists a, b; unfold strip; now rewrite <- Eb.
Qed.

Lemma startswith_prefix (p s : str) :
  startswith s p = true -> exists c, s = p ++ c.
Proof.
  revert s; induction p as [|a p IH]; intros s H.
  - now exists s.
  - destruct s as [|b s]; simpl in H; [discriminate|].
    apply andb_true_iff in H as [Hab Hs].
    apply N.eqb_eq in Hab; subst b.
    destruct (IH s Hs) as [c ->]; now exists c.
Qed.

Lemma endswith_suffix (p s : str) :
  endswith s p = true -> exists c, s = c ++ p.
Proof.
  unfold endswith; intros H.
  destruct (startswith_prefix _ _ H) as [c E].
  exists (rev c).
  rewrite <- (rev_involutive s), E, rev_app_distr; now rewrite rev_involutive.
Qed.

(** Text without any fence marker has none at either end once trimmed. *)
Lemma unfenced_text_has_no_edge_fence (raw : str) :
  ~ contains raw fence ->
  startswith (strip raw) fence = false /\ endswith (strip raw) fence = false.
Proof.
  intros Hno; destruct (strip_inside raw) as (a & b & E).
  split.
  - destruct (startswith (strip raw) fence) eqn:H; [|reflexivity].
    exfalso; apply Hno.
    destruct (startswith_prefix _ _ H) as [c Ec].
    exists a, (c ++ b); rewrite E, Ec; now rewrite <- app_assoc.
  - destruct (endswith (strip raw) fence) eqn:H; [|reflexivity].
    exfalso; apply Hno.
    destruct (endswith_suffix _ _ H) as [c Ec].
    exists (a ++ c), b; rewrite E, Ec; now rewrite <- !app_assoc.
Qed.




End TextFacts.

(* ===================================================================== *)
(** ** [generate_queries] *)
(* ===================================================================== *)

Section Generate.

Variable model : language_model.
Variable topic : str.

Lemma generate_after_model (raw : str) :
  model (prompt topic) = Ok raw ->
  generate_queries model topic = (text <- parser_input raw ;; json_loads text).
Proof. intros H; unfold generate_queries; now rewrite H. Qed.


(** C4.  Scenario A: on the fenced block the opening fence line and the
    closing fence are removed, the JSON line between them is what reaches
    the parser, and the three-key mapping is returned. *)
Theorem scenario_A_fenced_json :
  model (prompt topic) = Ok Scenario.fenced_completion ->
  parser_input Scenario.fenced_completion = Ok Scenario.json_line
  /\ generate_queries model topic = Ok Scenario.variants.
Proof.
  intros Hm; split.
  - vm_compute; reflexivity.
  - rewrite (generate_after_model _ Hm); vm_compute; reflexivity.
Qed.



(** C10.  Fence stripping is not total: when the trimmed completion is
    exactly the fence marker, the split at the first newline has one part
    only and taking the second raises IndexError, which is neither of the
    two generation errors. *)
Theorem lone_fence_raises_IndexError (raw : str) :
  model (prompt topic) = Ok raw ->
  strip raw = fence ->
  parser_input raw = Raise IndexError
  /\ generate_queries model topic = Raise IndexError
  /\ is_generation_error IndexError = false.
Proof.
  intros Hm Hf.
  assert (Hp : parser_input raw = Raise IndexError).
  { unfold parser_input; rewrite Hf; vm_compute; reflexivity. }
  split; [exact Hp|]; split; [|reflexivity].
  now rewrite (generate_after_model raw Hm), Hp.
Qed.

End Generate.



Lemma scenario_A_fenced_json_witness :
  parser_input Scenario.fenced_completion = Ok Scenario.json_line
  /\ generate_queries (Scenario.answers Scenario.fenced_completion)
                      Scenario.topic = Ok Scenario.variants.
Proof.
  apply (scenario_A_fenced_json
           (Scenario.answers Scenario.fenced_completion) Scenario.topic).
  reflexivity.
Defined.




Lemma lone_fence_raises_IndexError_witness :
  parser_input Scenario.lone_fence_completion = Raise IndexError
  /\ generate_queries (Scenario.answers Scenario.lone_fence_completion)
                      Scenario.topic = Raise IndexError
  /\ is_generation_error IndexError = false.
Proof.
  apply (lone_fence_raises_IndexError
           (Scenario.answers Scenario.lone_fence_completion) Scenario.topic
           Scenario.lone_fence_completion).
  - reflexivity.
  - vm_compute; reflexivity.
Defined.

(* ===================================================================== *)
(** ** [search_papers] *)
(* ===================================================================== *)

Section Filter.

Lemma py_and_get (d : dict) (k : str) (rest : result json) :
  py_and (get (JObj d) k JNull) rest
  = if truthy (field d k) then rest else Ok (field d k).
Proof. reflexivity. Qed.

(** On a mapping the condition of the filter is the conjunction of the
    truth values of the six fields. *)
Lemma has_required_fields_dict (d : dict) :
  has_required_fields (JObj d)
  = Ok (truthy (field d (py "paperId")) && truthy (field d (py "title"))
        && truthy (field d (py "abstract")) && truthy (field d (py "year"))
        && truthy (field d (py "authors")) && truthy (field d (py "url"))).
Proof.
  unfold has_required_fields; rewrite !py_and_get.
  change (get (JObj d) (py "url") JNull) with (@Ok json (field d (py "url"))).
  destruct (truthy (field d (py "paperId"))) eqn:E1; simpl;
    [|now rewrite E1].
  destruct (truthy (field d (py "title"))) eqn:E2; simpl; [|now rewrite E2].
  destruct (truthy (field d (py "abstract"))) eqn:E3; simpl;
    [|now rewrite E3].
  destruct (truthy (field d (py "year"))) eqn:E4; simpl; [|now rewrite E4].
  destruct (truthy (field d (py "authors"))) eqn:E5; simpl;
    [|now rewrite E5].
  reflexivity.
Qed.

Lemma has_required_fields_raises (p : json) (e : exn) :
  has_required_fields p = Raise e -> e = AttributeError.
Proof.
  destruct p; try (intros H; injection H as <-; reflexivity).
  rewrite has_required_fields_dict; discriminate.
Qed.

Lemma truthy_not_empty (v : json) : truthy v = true -> is_empty v = false.
Proof.
  destruct v as [| | | |s|l|d]; simpl; try reflexivity; try discriminate;
    [destruct s|destruct l|destruct d]; simpl; congruence.
Qed.

Lemma truthy_field_present (d : dict) (k : str) :
  truthy (field d k) = true -> present_nonempty d k = true.
Proof.
  unfold field, present_nonempty; destruct (dict_get d k) as [v|].
  - intros H; now rewrite (truthy_not_empty v H).
  - discriminate.
Qed.

Lemma has_required_fields_complete (p : json) :
  has_required_fields p = Ok true -> complete p = true.
Proof.
  destruct p as [| | | | | |d]; try discriminate.
  rewrite has_required_fields_dict; intros H; injection H as H.
  repeat (apply andb_true_iff in H; destruct H as [H ?]).
  unfold complete, required_fields, forallb.
  rewrite !truthy_field_present by assumption; reflexivity.
Qed.

Lemma keep_papers_complete (data : list json) :
  forall filtered l,
    Forall (fun p => complete p = true) filtered ->
    keep_papers data filtered = Ok l ->
    Forall (fun p => complete p = true) l.
Proof.
  induction data as [|p rest IH]; simpl; intros filtered l Hf H.
  - now injection H as <-.
  - destruct (has_required_fields p) as [c|e] eqn:Hc; simpl in H;
      [|discriminate].
    apply (IH _ _) in H; [exact H|].
    destruct c; [|exact Hf].
    apply Forall_app; split; [exact Hf|].
    constructor; [|constructor].
    now apply has_required_fields_complete.
Qed.

Lemma keep_papers_subsequence (data : list json) :
  forall filtered l,
    keep_papers data filtered = Ok l ->
    exists kept, l = filtered ++ kept /\ subsequence kept data.
Proof.
  induction data as [|p rest IH]; simpl; intros filtered l H.
  - injection H as <-; exists []; split; [now rewrite app_nil_r|constructor].
  - destruct (has_required_fields p) as [c|e] eqn:Hc; simpl in H;
      [|discriminate].
    destruct (IH _ _ H) as (kept & -> & Hsub).
    destruct c.
    + exists (p :: kept); split; [now rewrite <- app_assoc|now constructor].
    + exists kept; split; [reflexivity|now constructor].
Qed.


Lemma subsequence_length {A : Type} (l data : list A) :
  subsequence l data -> length l <= length data.
Proof. induction 1; simpl; lia. Qed.

End Filter.

Section Search.

Variable sec : secrets.
Variable net : network.
Variable query : str.
Variable log : list request.

Lemma search_after_response (resp : response) :
  net log (search_request sec query) = Ok resp ->
  fst (search_papers sec net query log)
  = (_ <- raise_for_status resp ;;
     parsed <- response_json resp ;;
     data <- get parsed (py "data") (JArr []) ;;
     items <- iterate data ;;
     keep_papers items []).
Proof. intros H; unfold search_papers; simpl; now rewrite H. Qed.

Lemma search_after_data (resp : response) (parsed : json) (data : list json) :
  net log (search_request sec query) = Ok resp ->
  raise_for_status resp = Ok tt ->
  response_json resp = Ok parsed ->
  get parsed (py "data") (JArr []) = Ok (JArr data) ->
  fst (search_papers sec net query log) = keep_papers data [].
Proof.
  intros Hn Hs Hj Hd.
  now rewrite (search_after_response resp Hn), Hs, Hj; simpl; rewrite Hd.
Qed.



(** C2.  Every record of the list [search_papers] returns satisfies the
    completeness predicate: identifier, title, abstract, year, authors and
    URL are all present and non-empty. *)
Theorem search_results_complete (l : list json) :
  fst (search_papers sec net query log) = Ok l ->
  Forall (fun p => complete p = true) l.
Proof.
  unfold search_papers; simpl.
  destruct (net log (search_request sec query)) as [resp|]; simpl;
    [|discriminate].
  destruct (raise_for_status resp); simpl; [|discriminate].
  destruct (response_json resp) as [parsed|]; simpl; [|discriminate].
  destruct (get parsed (py "data") (JArr [])) as [data|]; simpl;
    [|discriminate].
  destruct (iterate data) as [items|]; simpl; [|discriminate].
  apply keep_papers_complete; constructor.
Qed.

(** C3.  The returned list is a subsequence of the upstream [data] array:
    records are only removed, the retained ones keep their order and are
    returned as they came.  Hence it is no longer than the array, and no
    longer than the page size 10 sent as [limit] when the array is not. *)
Theorem search_result_is_subsequence
    (resp : response) (parsed : json) (data l : list json) :
  net log (search_request sec query) = Ok resp ->
  response_json resp = Ok parsed ->
  get parsed (py "data") (JArr []) = Ok (JArr data) ->
  fst (search_papers sec net query log) = Ok l ->
  subsequence l data
  /\ length l <= length data
  /\ dict_get (req_params (search_request sec query)) (py "limit")
     = Some (JInt 10)
  /\ (length data <= 10 -> length l <= 10).
Proof.
  intros Hn Hj Hd H.
  rewrite (search_after_response resp Hn) in H.
  destruct (raise_for_status resp); simpl in H; [|discriminate].
  rewrite Hj in H; simpl in H; rewrite Hd in H; simpl in H.
  destruct (keep_papers_subsequence _ _ _ H) as (kept & -> & Hsub).
  simpl; pose proof (subsequence_length _ _ Hsub) as Hlen.
  repeat split; [exact Hsub|exact Hlen|lia].
Qed.

(** C5.  A response whose [data] array is empty, or that has no [data] key
    at all, makes [search_papers] return the empty list: a result, not an
    error. *)
Theorem empty_data_gives_empty_list (resp : response) (d : dict) :
  net log (search_request sec query) = Ok resp ->
  raise_for_status resp = Ok tt ->
  response_json resp = Ok (JObj d) ->
  dict_get d (py "data") = Some (JArr []) \/ dict_get d (py "data") = None ->
  fst (search_papers sec net query log) = Ok []
  /\ forall e, fst (search_papers sec net query log) <> Raise e.
Proof.
  intros Hn Hs Hj Hd.
  assert (E : fst (search_papers sec net query log) = Ok []).
  { rewrite (search_after_data resp (JObj d) [] Hn Hs Hj); [reflexivity|].
    unfold get; destruct Hd as [-> | ->]; reflexivity. }
  split; [exact E|]; intros e; rewrite E; discriminate.
Qed.


End Search.

(** C9.  The filter tests the truth value of each field, not its presence:
    a record whose year is the integer 0 is dropped, a record whose authors
    list is empty is dropped, and a record whose authors list is not empty
    is kept when its other five fields are truthy, whatever the entries of
    that list are, entries without a name included. *)
Theorem completeness_filter_tests_truthiness
    (d : dict) (rest filtered : list json) :
  (dict_get d (py "year") = Some (JInt 0) ->
   keep_papers (JObj d :: rest) filtered = keep_papers rest filtered)
  /\ (dict_get d (py "authors") = Some (JArr []) ->
      keep_papers (JObj d :: rest) filtered = keep_papers rest filtered)
  /\ (forall a entries,
        dict_get d (py "authors") = Some (JArr (a :: entries)) ->
        truthy (field d (py "paperId")) = true ->
        truthy (field d (py "title")) = true ->
        truthy (field d (py "abstract")) = true ->
        truthy (field d (py "year")) = true ->
        truthy (field d (py "url")) = true ->
        keep_papers (JObj d :: rest) filtered
        = keep_papers rest (filtered ++ [JObj d])).
Proof.
  cbn [keep_papers]; rewrite has_required_fields_dict; simpl bind.
  split; [|split].
  - intros H; unfold field at 4; rewrite H; simpl truthy.
    now rewrite !andb_false_r.
  - intros H; unfold field at 5; rewrite H; simpl truthy.
    now rewrite !andb_false_r.
  - intros a entries H H1 H2 H3 H4 H6.
    rewrite H1, H2, H3, H4, H6; unfold field; rewrite H; reflexivity.
Qed.

Lemma search_results_complete_witness :
  Forall (fun p => complete p = true) [Scenario.paper1].
Proof.
  apply (search_results_complete
           [] (Scenario.replies 200 Scenario.two_papers_body) (py "q") []).
  vm_compute; reflexivity.
Defined.

Lemma search_result_is_subsequence_witness :
  subsequence [Scenario.paper1] [Scenario.paper1; Scenario.paper2]
  /\ length [Scenario.paper1] <= length [Scenario.paper1; Scenario.paper2]
  /\ dict_get (req_params (search_request [] (py "q"))) (py "limit")
     = Some (JInt 10)
  /\ (length [Scenario.paper1; Scenario.paper2] <= 10 ->
      length [Scenario.paper1] <= 10).
Proof.
  apply (search_result_is_subsequence
           [] (Scenario.replies 200 Scenario.two_papers_body) (py "q") []
           (mk_response 200 Scenario.two_papers_body)
           (JObj [(py "data", JArr [Scenario.paper1; Scenario.paper2])])).
  - reflexivity.
  - vm_compute; reflexivity.
  - vm_compute; reflexivity.
  - vm_compute; reflexivity.
Defined.

Lemma empty_data_gives_empty_list_witness :
  (fst (search_papers [] (Scenario.replies 200 Scenario.empty_data_body)
                      (py "q") []) = Ok []
   /\ forall e,
       fst (search_papers [] (Scenario.replies 200 Scenario.empty_data_body)
                          (py "q") []) <> Raise e)
  /\ (fst (search_papers [] (Scenario.replies 200 Scenario.no_data_body)
                         (py "q") []) = Ok []
      /\ forall e,
          fst (search_papers [] (Scenario.replies 200 Scenario.no_data_body)
                             (py "q") []) <> Raise e).
Proof.
  split.
  - apply (empty_data_gives_empty_list
             [] (Scenario.replies 200 Scenario.empty_data_body) (py "q") []
             (mk_response 200 Scenario.empty_data_body)
             [(py "data", JArr [])]).
    + reflexivity.
    + reflexivity.
    + vm_compute; reflexivity.
    + left; vm_compute; reflexivity.
  - apply (empty_data_gives_empty_list
             [] (Scenario.replies 200 Scenario.no_data_body) (py "q") []
             (mk_response 200 Scenario.no_data_body)
             [(py "total", JInt 0)]).
    + reflexivity.
    + reflexivity.
    + vm_compute; reflexivity.
    + right; vm_compute; reflexivity.
Defined.



Lemma completeness_filter_tests_truthiness_witness :
  keep_papers [Scenario.year_zero] [] = Ok []
  /\ keep_papers [Scenario.no_authors] [] = Ok []
  /\ keep_papers [Scenario.nameless_authors] []
     = Ok [Scenario.nameless_authors].
Proof.
  split; [|split].
  - apply (proj1 (completeness_filter_tests_truthiness
                    [(py "paperId", JStr (py "1")); (py "title", JStr (py "T"));
                     (py "abstract", JStr (py "A")); (py "year", JInt 0);
                     (py "authors", JArr [JObj [(py "name", JStr (py "X"))]]);
                     (py "url", JStr (py "u"))] [] [])).
    vm_compute; reflexivity.
  - apply (proj1 (proj2 (completeness_filter_tests_truthiness
                    [(py "paperId", JStr (py "1")); (py "title", JStr (py "T"));
                     (py "abstract", JStr (py "A")); (py "year", JInt 2023);
                     (py "authors", JArr []);
                     (py "url", JStr (py "u"))] [] []))).
    vm_compute; reflexivity.
  - apply (proj2 (proj2 (completeness_filter_tests_truthiness
                    [(py "paperId", JStr (py "1")); (py "title", JStr (py "T"));
                     (py "abstract", JStr (py "A")); (py "year", JInt 2023);
                     (py "authors", JArr [JObj []; JObj [(py "id", JInt 7)]]);
                     (py "url", JStr (py "u"))] [] []))
                 (JObj []) [JObj [(py "id", JInt 7)]]);
      vm_compute; reflexivity.
Defined.

(* ===================================================================== *)
(** ** More on [search_papers] *)
(* ===================================================================== *)

Section SearchEdges.

Variable sec : secrets.
Variable net : network.
Variable query : str.
Variable log : list request.

Lemma has_required_fields_is_all_truthy (p : json) :
  is_mapping p = true ->
  has_required_fields p = Ok (all_fields_truthy p).
Proof.
  destruct p as [| | | | | |d]; try discriminate; intros _.
  rewrite has_required_fields_dict; simpl.
  now rewrite andb_true_r, !andb_assoc.
Qed.

Lemma keep_papers_is_filter (data : list json) :
  Forall (fun p => is_mapping p = true) data ->
  forall filtered,
    keep_papers data filtered = Ok (filtered ++ filter all_fields_truthy data).
Proof.
  induction 1 as [|p rest Hp _ IH]; intros filtered; simpl.
  - now rewrite app_nil_r.
  - rewrite (has_required_fields_is_all_truthy p Hp); simpl.
    rewrite IH; destruct (all_fields_truthy p); [|reflexivity].
    now rewrite <- app_assoc.
Qed.

Lemma keep_papers_stray_record (data : list json) :
  Exists (fun p => is_mapping p = false) data ->
  forall filtered, keep_papers data filtered = Raise AttributeError.
Proof.
  induction 1 as [p rest Hp | p rest _ IH]; intros filtered; simpl.
  - destruct p; try discriminate; reflexivity.
  - destruct (has_required_fields p) as [c|e] eqn:Hc; simpl.
    + apply IH.
    + f_equal; eapply has_required_fields_raises; eassumption.
Qed.

(** When every record of the [data] array is a mapping, the search returns
    exactly the records whose six required fields are all truthy, in the
    order of the array: no qualifying record is left out. *)
Theorem search_returns_all_qualifying_records
    (resp : response) (parsed : json) (data : list json) :
  net log (search_request sec query) = Ok resp ->
  raise_for_status resp = Ok tt ->
  response_json resp = Ok parsed ->
  get parsed (py "data") (JArr []) = Ok (JArr data) ->
  Forall (fun p => is_mapping p = true) data ->
  fst (search_papers sec net query log) = Ok (filter all_fields_truthy data).
Proof.
  intros Hn Hs Hj Hd Hall.
  rewrite (search_after_data sec net query log resp parsed data Hn Hs Hj Hd).
  now rewrite (keep_papers_is_filter data Hall []).
Qed.

(** One record of the [data] array that is not a mapping (a number, a
    string, null, a list) fails the whole search with AttributeError, also
    when the other records qualify. *)
Theorem stray_record_fails_search
    (resp : response) (parsed : json) (data : list json) :
  net log (search_request sec query) = Ok resp ->
  raise_for_status resp = Ok tt ->
  response_json resp = Ok parsed ->
  get parsed (py "data") (JArr []) = Ok (JArr data) ->
  Exists (fun p => is_mapping p = false) data ->
  fst (search_papers sec net query log) = Raise AttributeError.
Proof.
  intros Hn Hs Hj Hd Hex.
  rewrite (search_after_data sec net query log resp parsed data Hn Hs Hj Hd).
  now apply keep_papers_stray_record.
Qed.


(** A [data] key bound to null, a boolean or a number is not taken for an
    empty array: the search fails with TypeError.  Bound to an empty string
    or an empty mapping it gives the empty list, and bound to a non-empty
    string or mapping it fails with AttributeError. *)
Theorem data_of_another_type (resp : response) (d : dict) (v : json) :
  net log (search_request sec query) = Ok resp ->
  raise_for_status resp = Ok tt ->
  response_json resp = Ok (JObj d) ->
  dict_get d (py "data") = Some v ->
  (is_scalar v = true ->
   fst (search_papers sec net query log) = Raise TypeError)
  /\ (v = JStr [] \/ v = JObj [] ->
      fst (search_papers sec net query log) = Ok [])
  /\ (forall c s, v = JStr (c :: s) ->
      fst (search_papers sec net query log) = Raise AttributeError)
  /\ (forall kv m, v = JObj (kv :: m) ->
      fst (search_papers sec net query log) = Raise AttributeError).
Proof.
  intros Hn Hs Hj Hd; rewrite (search_after_response sec net query log resp Hn).
  rewrite Hs, Hj; cbn [bind]; unfold get; rewrite Hd; cbn [bind].
  split; [|split; [|split]].
  - destruct v; try discriminate; reflexivity.
  - intros [-> | ->]; reflexivity.
  - intros c s ->; reflexivity.
  - intros kv m ->; reflexivity.
Qed.

End SearchEdges.

Lemma search_returns_all_qualifying_records_witness :
  fst (search_papers [] (Scenario.replies 200 Scenario.two_papers_body)
                     (py "q") [])
  = Ok (filter all_fields_truthy [Scenario.paper1; Scenario.paper2]).
Proof.
  apply (search_returns_all_qualifying_records
           [] (Scenario.replies 200 Scenario.two_papers_body) (py "q") []
           (mk_response 200 Scenario.two_papers_body)
           (JObj [(py "data", JArr [Scenario.paper1; Scenario.paper2])])).
  - reflexivity.
  - reflexivity.
  - vm_compute; reflexivity.
  - vm_compute; reflexivity.
  - repeat constructor.
Defined.

Lemma stray_record_fails_search_witness :
  fst (search_papers [] (Scenario.replies 200 Cases.stray_number_body)
                     (py "q") [])
  = Raise AttributeError.
Proof.
  apply (stray_record_fails_search
           [] (Scenario.replies 200 Cases.stray_number_body) (py "q") []
           (mk_response 200 Cases.stray_number_body)
           (JObj [(py "data", JArr [JObj [(py "paperId", JStr (py "2"))];
                                    JInt 7])])
           [JObj [(py "paperId", JStr (py "2"))]; JInt 7]).
  - reflexivity.
  - reflexivity.
  - vm_compute; reflexivity.
  - vm_compute; reflexivity.
  - right; left; reflexivity.
Defined.


Lemma data_of_another_type_witness :
  fst (search_papers [] (Scenario.replies 200 Cases.null_data_body)
                     (py "q") []) = Raise TypeError.
Proof.
  apply (proj1 (data_of_another_type
                  [] (Scenario.replies 200 Cases.null_data_body) (py "q") []
                  (mk_response 200 Cases.null_data_body)
                  [(py "data", JNull)] JNull eq_refl eq_refl
                  ltac:(vm_compute; reflexivity)
                  ltac:(vm_compute; reflexivity))).
  reflexivity.
Defined.

(* ===================================================================== *)
(** ** More on the code fences *)
(* ===================================================================== *)

Section Fences.

Lemma startswith_app (p s : str) : startswith (p ++ s) p = true.
Proof.
  induction p as [|a p IH]; simpl; [now destruct s|].
  now rewrite N.eqb_refl, IH.
Qed.

Lemma endswith_app (s p : str) : endswith (s ++ p) p = true.
Proof. unfold endswith; rewrite rev_app_distr; apply startswith_app. Qed.

Lemma partition_newline_step (c : char) (r : str) :
  str_partition nl (c :: r)
  = if (10 =? c)%N then Some ([], r)
    else match str_partition nl r with
         | Some (before, after) => Some (c :: before, after)
         | None => None
         end.
Proof.
  unfold nl; cbn [str_partition startswith length skipn].
  destruct (10 =? c)%N; [|reflexivity].
  now destruct r.
Qed.

(** Splitting at the first newline. *)
Lemma split_first_line (line rest : str) :
  ~ In 10%N line ->
  split1 (line ++ nl ++ rest) nl = [line; rest].
Proof.
  unfold split1; intros Hno.
  assert (E : str_partition nl (line ++ nl ++ rest) = Some (line, rest)).
  { induction line as [|c line IH].
    - change ([] ++ nl ++ rest) with (10%N :: rest).
      now rewrite partition_newline_step.
    - change ((c :: line) ++ nl ++ rest) with (c :: (line ++ nl ++ rest)).
      rewrite partition_newline_step.
      destruct (N.eqb_spec 10 c) as [<-|Hc].
      + exfalso; apply Hno; now left.
      + rewrite IH; [reflexivity|].
        intros Hin; apply Hno; now right. }
  now rewrite E.
Qed.

Lemma split_no_newline (s : str) :
  ~ In 10%N s -> split1 s nl = [s].
Proof.
  unfold split1; intros Hno.
  assert (E : str_partition nl s = None).
  { induction s as [|c s IH]; [reflexivity|].
    rewrite partition_newline_step.
    destruct (N.eqb_spec 10 c) as [<-|Hc].
    - exfalso; apply Hno; now left.
    - rewrite IH; [reflexivity|].
      intros Hin; apply Hno; now right. }
  now rewrite E.
Qed.

Lemma partition_at_head (sep s : str) :
  str_partition sep (sep ++ s) = Some ([], s).
Proof.
  assert (H : forall x, startswith x sep = true ->
                        str_partition sep x = Some ([], skipn (length sep) x)).
  { intros x Hx; destruct x; simpl in *; now rewrite Hx. }
  rewrite H by apply startswith_app; clear H.
  do 2 f_equal; induction sep as [|a sep IH]; [reflexivity|exact IH].
Qed.

(** Splitting at the last fence of text that ends with one. *)
Lemma rsplit_closing_fence (s : str) :
  getitem (rsplit1 (s ++ fence) fence) 0 = Ok s.
Proof.
  unfold rsplit1; rewrite rev_app_distr, partition_at_head; simpl.
  now rewrite rev_involutive.
Qed.

(** A completion that is one fenced block: an opening fence with any tag
    on its line, the body, the closing fence.  What reaches the JSON parser
    is the body, trimmed, whatever the tag and the body are. *)
Theorem fenced_block_yields_body (raw tag block : str) :
  strip raw = fence ++ tag ++ nl ++ block ++ fence ->
  ~ In 10%N tag ->
  parser_input raw = Ok (strip block).
Proof.
  intros E Htag; unfold parser_input; rewrite E.
  rewrite startswith_app.
  rewrite (app_assoc fence tag), split_first_line.
  - unfold getitem at 1; cbn [nth_error bind].
    rewrite endswith_app, rsplit_closing_fence; reflexivity.
  - intros Hin; apply in_app_or in Hin as [Hin|Hin]; [|now apply Htag].
    vm_compute in Hin; intuition discriminate.
Qed.

(** A fence at one end only is removed all the same: an opening fence line
    without a closing fence, and a closing fence without an opening one. *)
Theorem lone_fences_are_stripped (raw tag block : str) :
  (strip raw = fence ++ tag ++ nl ++ block ->
   ~ In 10%N tag ->
   endswith block fence = false ->
   parser_input raw = Ok (strip block))
  /\ (strip raw = block ++ fence ->
      startswith (block ++ fence) fence = false ->
      parser_input raw = Ok (strip block)).
Proof.
  split.
  - intros E Htag Hend; unfold parser_input; rewrite E.
    rewrite startswith_app.
    rewrite (app_assoc fence tag), split_first_line.
    + unfold getitem at 1; cbn [nth_error bind]; rewrite Hend; reflexivity.
    + intros Hin; apply in_app_or in Hin as [Hin|Hin]; [|now apply Htag].
      vm_compute in Hin; intuition discriminate.
  - intros E Hstart; unfold parser_input; rewrite E, Hstart; cbn [bind].
    rewrite endswith_app, rsplit_closing_fence; reflexivity.
Qed.

(** A completion that opens with a fence and has no line break after
    trimming, such as a fenced block written on one line, makes
    [generate_queries] fail with IndexError whatever the block holds. *)
Theorem fence_without_newline_raises
    (model : language_model) (topic raw : str) :
  model (prompt topic) = Ok raw ->
  startswith (strip raw) fence = true ->
  ~ In 10%N (strip raw) ->
  generate_queries model topic = Raise IndexError.
Proof.
  intros Hm Hs Hno.
  rewrite (generate_after_model model topic raw Hm).
  unfold parser_input; rewrite Hs, (split_no_newline _ Hno); reflexivity.
Qed.

End Fences.

Lemma fenced_block_yields_body_witness :
  parser_input Scenario.fenced_completion
  = Ok (strip (Scenario.json_line ++ nl)).
Proof.
  apply (fenced_block_yields_body
           Scenario.fenced_completion (py "json") (Scenario.json_line ++ nl)).
  - vm_compute; reflexivity.
  - vm_compute; intuition discriminate.
Defined.

Lemma lone_fences_are_stripped_witness :
  parser_input Cases.open_fence_only = Ok (py "[1, 2]")
  /\ parser_input Cases.close_fence_only = Ok (py "[1, 2]").
Proof.
  split.
  - apply (proj1 (lone_fences_are_stripped
                    Cases.open_fence_only (py "json") (py "[1, 2]"))).
    + vm_compute; reflexivity.
    + vm_compute; intuition discriminate.
    + vm_compute; reflexivity.
  - change (@Ok str (py "[1, 2]")) with (@Ok str (strip (py "[1, 2]" ++ nl))).
    apply (proj2 (lone_fences_are_stripped
                    Cases.close_fence_only (py "json") (py "[1, 2]" ++ nl))).
    + vm_compute; reflexivity.
    + vm_compute; reflexivity.
Defined.

Lemma fence_without_newline_raises_witness :
  generate_queries (Scenario.answers Cases.fence_on_one_line) Scenario.topic
  = Raise IndexError.
Proof.
  apply (fence_without_newline_raises
           (Scenario.answers Cases.fence_on_one_line) Scenario.topic
           Cases.fence_on_one_line).
  - reflexivity.
  - vm_compute; reflexivity.
  - vm_compute; intuition discriminate.
Defined.

(* ===================================================================== *)
(** ** [render_paper_card] *)
(* ===================================================================== *)

Section Cards.

Variable rt : runtime.

Lemma subscript_present (d : dict) (k : str) (v : json) :
  dict_get d k = Some v -> subscript (JObj d) k = Done v.
Proof. intros H; unfold subscript; now rewrite H. Qed.

Lemma truthy_field_some (d : dict) (k : str) :
  truthy (field d k) = true -> exists v, dict_get d k = Some v.
Proof.
  unfold field; destruct (dict_get d k) as [v|]; [now exists v|discriminate].
Qed.

Lemma author_names_nameless (entries : list json) :
  Forall (fun a => is_mapping a = true) entries ->
  Exists (fun a => has_name a = false) entries ->
  author_names entries = Fail (KeyError (py "name")).
Proof.
  intros Hall Hex; induction Hex as [a rest Ha | a rest _ IH].
  - destruct a as [| | | | | |d]; inversion Hall; subst; try discriminate.
    simpl in *; destruct (dict_get d (py "name")); [discriminate|reflexivity].
  - inversion Hall as [|? ? Ha Hrest]; subst.
    destruct a as [| | | | | |d]; try discriminate.
    cbn [author_names]; unfold subscript.
    destruct (dict_get d (py "name")); cbn [and_then]; [|reflexivity].
    now rewrite (IH Hrest).
Qed.

Lemma author_names_named (entries : list json) :
  forall names,
    map name_of entries = map Some names ->
    author_names entries = Done (map JStr names).
Proof.
  induction entries as [|a rest IH]; intros [|n names] H; try discriminate.
  - reflexivity.
  - simpl in H; injection H as Ha Hrest.
    cbn [author_names]; rewrite (IH names Hrest).
    destruct a as [| | | | | |d]; try discriminate.
    unfold name_of in Ha; unfold subscript.
    destruct (dict_get d (py "name")) as [[| | | |s| |]|]; try discriminate.
    now injection Ha as ->.
Qed.

Lemma join_strings (sep : str) (names : list str) :
  join sep (map JStr names) = Done (intercalate sep names).
Proof.
  induction names as [|s rest IH]; [reflexivity|].
  destruct rest as [|t rest]; [reflexivity|].
  change (map JStr (s :: t :: rest)) with (JStr s :: map JStr (t :: rest)).
  cbn [join]; change (map JStr (t :: rest)) with (JStr t :: map JStr rest).
  cbv iota; change (JStr t :: map JStr rest) with (map JStr (t :: rest)).
  now rewrite IH.
Qed.

Lemma badges_of_mapping (d : dict) (year : json) :
  badges rt (JObj d) year
  = Done (span_open "badge badge-year" ++ py_str rt year ++ py "</span>"
          ++ (if truthy (field d (py "venue"))
              then span_open "badge badge-venue"
                   ++ py_str rt (field d (py "venue")) ++ py "</span>"
              else [])
          ++ match field d (py "citationCount") with
             | JNull => []
             | cite => span_open "badge badge-cite" ++ py_str rt cite
                       ++ py " citations</span>"
             end).
Proof.
  unfold badges, get, lift; cbn [and_then].
  change (match dict_get d (py "venue") with Some x => x | None => JNull end)
    with (field d (py "venue")).
  change (match dict_get d (py "citationCount") with
          | Some x => x | None => JNull end)
    with (field d (py "citationCount")).
  assert (Hsub : forall k, field d k <> JNull ->
                           subscript (JObj d) k = Done (field d k)).
  { intros k; unfold field, subscript.
    destruct (dict_get d k); [reflexivity|congruence]. }
  destruct (truthy (field d (py "venue"))) eqn:Hv.
  - rewrite (Hsub (py "venue")) by (intros E; rewrite E in Hv; discriminate).
    cbn [and_then].
    destruct (field d (py "citationCount")) eqn:Hc;
      try (rewrite (Hsub (py "citationCount")) by (rewrite Hc; discriminate);
           rewrite Hc; cbn [and_then]);
      now rewrite <- ?app_assoc, ?app_nil_r.
  - cbn [and_then].
    destruct (field d (py "citationCount")) eqn:Hc;
      try (rewrite (Hsub (py "citationCount")) by (rewrite Hc; discriminate);
           rewrite Hc; cbn [and_then]);
      now rewrite <- ?app_assoc, ?app_nil_r.
Qed.

(** The badges of a mapping never fail: the year always, the venue when
    it is truthy, the citation count when it is present and not null, so
    that a count of 0 is shown while an empty venue is not. *)
Theorem badges_follow_presence_tests (d : dict) (year : json) :
  badges rt (JObj d) year
  = Done (span_open "badge badge-year" ++ py_str rt year ++ py "</span>"
          ++ (if truthy (field d (py "venue"))
              then span_open "badge badge-venue"
                   ++ py_str rt (field d (py "venue")) ++ py "</span>"
              else [])
          ++ match field d (py "citationCount") with
             | JNull => []
             | cite => span_open "badge badge-cite" ++ py_str rt cite
                       ++ py " citations</span>"
             end).
Proof. exact (badges_of_mapping d year). Qed.

(** An abstract that is a string is shown whole up to 300 characters and
    otherwise cut to its first 300 characters followed by three dots: the
    text shown never exceeds 303 characters. *)
Theorem shown_abstract_is_bounded (s : str) :
  exists t,
    shown_abstract rt (JStr s) = Done (JStr t)
    /\ length t <= 303
    /\ firstn 300 t = firstn 300 s
    /\ (length s <= 300 -> t = s)
    /\ (300 < length s -> t = firstn 300 s ++ py "..." /\ length t = 303).
Proof.
  unfold shown_abstract, py_len; cbn [and_then].
  destruct (Nat.ltb_spec 300 (length s)) as [Hlong|Hshort].
  - exists (firstn 300 s ++ py "..."); split; [reflexivity|].
    assert (Hlen : length (firstn 300 s) = 300)
      by (rewrite length_firstn; lia).
    assert (Hdots : length (py "...") = 3) by reflexivity.
    repeat split.
    + rewrite length_app; lia.
    + rewrite firstn_app, Hlen, Nat.sub_diag, firstn_O, app_nil_r.
      now rewrite firstn_firstn.
    + lia.
    + rewrite length_app; lia.
  - exists s; repeat split; try reflexivity; lia.
Qed.

(** A record that passes the filter of the search and whose authors are
    mappings of which one has no name makes the card fail with the
    KeyError of that name: nothing is rendered for it. *)
Theorem nameless_author_breaks_card (d : dict) (entries : list json) :
  has_required_fields (JObj d) = Ok true ->
  dict_get d (py "authors") = Some (JArr entries) ->
  Forall (fun a => is_mapping a = true) entries ->
  Exists (fun a => has_name a = false) entries ->
  render_paper_card rt (JObj d) = Fail (KeyError (py "name")).
Proof.
  rewrite has_required_fields_dict; intros H Ha Hall Hex; injection H as H.
  repeat (apply andb_true_iff in H; destruct H as [H ?]).
  destruct (truthy_field_some d (py "title")) as [t Ht]; [assumption|].
  destruct (truthy_field_some d (py "url")) as [u Hu]; [assumption|].
  unfold render_paper_card.
  rewrite (subscript_present _ _ _ Ht), (subscript_present _ _ _ Hu),
    (subscript_present _ _ _ Ha); cbn [and_then iterate lift].
  now rewrite (author_names_nameless entries Hall Hex).
Qed.

(** A record whose title, URL and abstract are strings, whose authors are
    mappings with a string name and whose year is present is rendered
    without failure: the card carries the title, the URL and the names as
    they are, joined by a comma and a space, and the abstract cut at 300
    characters. *)
Theorem typed_paper_renders
    (d : dict) (title url abstract : str) (year : json)
    (entries : list json) (names : list str) :
  dict_get d (py "title") = Some (JStr title) ->
  dict_get d (py "url") = Some (JStr url) ->
  dict_get d (py "authors") = Some (JArr entries) ->
  map name_of entries = map Some names ->
  dict_get d (py "year") = Some year ->
  dict_get d (py "abstract") = Some (JStr abstract) ->
  exists badges_html,
    badges rt (JObj d) year = Done badges_html
    /\ render_paper_card rt (JObj d)
       = Done (card_html url title (intercalate (py ", ") names) badges_html
                 (if (300 <? length abstract)%nat
                  then firstn 300 abstract ++ py "..."
                  else abstract)).
Proof.
  intros Ht Hu Ha Hn Hy Hb.
  eexists; split; [apply badges_of_mapping|].
  unfold render_paper_card.
  rewrite (subscript_present _ _ _ Ht), (subscript_present _ _ _ Hu),
    (subscript_present _ _ _ Ha), (subscript_present _ _ _ Hy),
    (subscript_present _ _ _ Hb); cbn [and_then iterate lift].
  rewrite (author_names_named entries names Hn); cbn [and_then].
  rewrite join_strings; cbn [and_then].
  rewrite badges_of_mapping.
  unfold shown_abstract, py_len; cbn [and_then].
  destruct (300 <? length abstract)%nat; reflexivity.
Qed.

End Cards.

Lemma nameless_author_breaks_card_witness :
  render_paper_card Cases.rt0 Cases.nameless_paper
  = Fail (KeyError (py "name")).
Proof.
  apply (nameless_author_breaks_card
           Cases.rt0
           [(py "paperId", JStr (py "1")); (py "title", JStr (py "T"));
            (py "abstract", JStr (py "A")); (py "year", JInt 2023);
            (py "authors", JArr [JObj []]); (py "url", JStr (py "u"))]
           [JObj []]).
  - vm_compute; reflexivity.
  - vm_compute; reflexivity.
  - repeat constructor.
  - left; reflexivity.
Defined.

Lemma typed_paper_renders_witness :
  exists badges_html,
    badges Cases.rt0 Scenario.paper1 (JInt 2023) = Done badges_html
    /\ render_paper_card Cases.rt0 Scenario.paper1
       = Done (card_html (py "u") (py "T") (py "X") badges_html (py "A")).
Proof.
  apply (typed_paper_renders
           Cases.rt0
           [(py "paperId", JStr (py "1")); (py "title", JStr (py "T"));
            (py "abstract", JStr (py "A")); (py "year", JInt 2023);
            (py "authors", JArr [JObj [(py "name", JStr (py "X"))]]);
            (py "url", JStr (py "u"))]
           (py "T") (py "u") (py "A") (JInt 2023)
           [JObj [(py "name", JStr (py "X"))]] [py "X"]);
    vm_compute; reflexivity.
Defined.

Lemma shown_abstract_is_bounded_witness :
  exists t,
    shown_abstract Cases.rt0 (JStr Cases.long_abstract) = Done (JStr t)
    /\ length t = 303.
Proof.
  destruct (shown_abstract_is_bounded Cases.rt0 Cases.long_abstract)
    as (t & Ht & _ & _ & _ & Hlong).
  exists t; split; [exact Ht|].
  apply Hlong; vm_compute; lia.
Defined.

(* ===================================================================== *)
(** ** The action and the main area *)
(* ===================================================================== *)

Section Runs.

Variable rt : runtime.
Variable sv : services.

Lemma search_papers_of_string (s : secrets) (n : network) (q : str)
    (log : list request) :
  search_papers_of s n (JStr q) log = search_papers s n q log.
Proof. reflexivity. Qed.

Lemma search_into_session_effect (p : place) (q : json) (w : world) :
  let w' := search_into_session rt sv p q w in
  sent w' = sent w ++ [search_request_of (sec sv) q]
  /\ queries (state w') = queries (state w)
  /\ selected_query (state w') = selected_query (state w)
  /\ papers (state w')
     = match fst (search_papers_of (sec sv) (net sv) q (sent w)) with
       | Ok l => Some l
       | Raise _ => None
       end.
Proof.
  unfold search_into_session, search_papers_of; cbn [show sent fst].
  destruct (resp <- net sv (sent w) (search_request_of (sec sv) q) ;;
            _ <- raise_for_status resp ;;
            parsed <- response_json resp ;;
            data <- get parsed (py "data") (JArr []) ;;
            items <- iterate data ;;
            keep_papers items []); cbn; repeat split.
Qed.

(** In AI mode a failed generation leaves the session as it was and shows
    one error box with the message of the exception; a successful one
    stores the parsed value and clears the papers and the selected query.
    Neither sends a search request. *)
Theorem generation_updates_session_on_success_only
    (wd : widgets) (w : world) :
  ai_enabled wd = true ->
  action_btn wd = true ->
  topic wd <> [] ->
  (forall e, generate_queries (model sv) (topic wd) = Raise e ->
     handle_action rt sv wd w
     = mk_world (state w)
         (screen w
          ++ [(Page, Spinner (py "Generating queries with Gemini..."));
              (Page, ErrorBox (py "Failed to generate queries: "
                               ++ exn_text rt e))])
         (sent w))
  /\ (forall q, generate_queries (model sv) (topic wd) = Ok q ->
        state (handle_action rt sv wd w) = mk_session q None JNull
        /\ sent (handle_action rt sv wd w) = sent w).
Proof.
  intros Hai Hbtn Htopic; unfold handle_action; rewrite Hai, Hbtn.
  destruct (topic wd) as [|c t] eqn:Et; [now destruct Htopic|].
  cbn [truthy andb]; split.
  - intros e ->; unfold show; cbn; now rewrite <- app_assoc.
  - intros q ->; split; reflexivity.
Qed.

Lemma direct_search_effect (wd : widgets) (w : world) :
  ai_enabled wd = false ->
  action_btn wd = true ->
  topic wd <> [] ->
  let w' := handle_action rt sv wd w in
  queries (state w') = JNull
  /\ selected_query (state w') = JStr (topic wd)
  /\ sent w' = sent w ++ [search_request (sec sv) (topic wd)]
  /\ papers (state w')
     = match fst (search_papers (sec sv) (net sv) (topic wd) (sent w)) with
       | Ok l => Some l
       | Raise _ => None
       end.
Proof.
  intros Hai Hbtn Htopic; unfold handle_action; rewrite Hai, Hbtn.
  destruct (topic wd) as [|c t] eqn:Et; [now destruct Htopic|].
  cbn [truthy andb].
  destruct (search_into_session_effect Page (JStr (c :: t))
              (set_state (mk_session JNull (papers (state w))
                                     (JStr (c :: t))) w))
    as (Hs & Hq & Hsel & Hp).
  cbv zeta in *; rewrite Hs, Hq, Hsel, Hp; repeat split.
Qed.

(** In direct mode the topic becomes the selected query and the query
    variants are cleared before one request is sent for it; the papers
    are those of the search, and a failed search clears the ones held
    before. *)
Theorem direct_search_updates_session (wd : widgets) (w : world) :
  ai_enabled wd = false ->
  action_btn wd = true ->
  topic wd <> [] ->
  let w' := handle_action rt sv wd w in
  queries (state w') = JNull
  /\ selected_query (state w') = JStr (topic wd)
  /\ sent w' = sent w ++ [search_request (sec sv) (topic wd)]
  /\ papers (state w')
     = match fst (search_papers (sec sv) (net sv) (topic wd) (sent w)) with
       | Ok l => Some l
       | Raise _ => None
       end.
Proof. exact (direct_search_effect wd w). Qed.

(** Without the button, or with an empty topic, the action does nothing:
    no call, no message, no change.  And whatever the widgets return, the
    AI path sends no search request. *)
Theorem action_is_inert_when_idle (wd : widgets) (w : world) :
  (action_btn wd = false \/ topic wd = [] ->
   handle_action rt sv wd w = w)
  /\ (ai_enabled wd = true -> sent (handle_action rt sv wd w) = sent w).
Proof.
  unfold handle_action; split.
  - intros [-> | ->]; [reflexivity|].
    now rewrite andb_false_r.
  - intros ->.
    destruct (action_btn wd && truthy (JStr (topic wd))); [|reflexivity].
    destruct (generate_queries (model sv) (topic wd)); reflexivity.
Qed.

Lemma variant_columns_missing (wd : widgets) (d : dict)
    (meta : list (str * (str * string))) :
  forall idx w,
    queries (state w) = JObj d ->
    Exists (fun m => dict_get d (fst m) = None) meta ->
    exists k,
      In k (map fst meta) /\ dict_get d k = None
      /\ fst (variant_columns rt sv wd idx meta w) = Fail (KeyError k).
Proof.
  induction meta as [|[key [label css]] rest IH]; intros idx w Hq Hex.
  - inversion Hex.
  - cbn [variant_columns]; rewrite Hq; unfold subscript.
    destruct (dict_get d key) as [v|] eqn:Hk.
    + inversion Hex as [? ? Hhead | ? ? Htail]; subst;
        [simpl in Hhead; congruence|].
      match goal with
      | |- context [variant_columns rt sv wd (S idx) rest ?w1] =>
          destruct (IH (S idx) w1) as (k & Hin & Hnone & Hfail);
            [|exact Htail|exists k; repeat split;
                           [now right|exact Hnone|exact Hfail]]
      end.
      destruct (variant_btn wd (py "btn_" ++ key)); [|exact Hq].
      match goal with
      | |- queries (state (search_into_session rt sv ?p ?q ?w0)) = _ =>
          destruct (search_into_session_effect p q w0) as (_ & -> & _)
      end.
      exact Hq.
    + exists key; repeat split; [now left|exact Hk].
Qed.

(** Query variants that are a non-empty mapping without one of the keys
    broad, focused, method stop the main area with the KeyError of a
    missing key, whichever buttons are pressed: the error is not caught. *)
Theorem partial_variants_stop_main_area
    (wd : widgets) (w : world) (d : dict) :
  queries (state w) = JObj d ->
  d <> [] ->
  missing_key (JObj d) = true ->
  exists k,
    In k variant_keys /\ dict_get d k = None
    /\ fst (main_area rt sv wd w) = Fail (KeyError k).
Proof.
  intros Hq Hne Hmiss.
  assert (Hex : Exists (fun m => dict_get d (fst m) = None) variant_meta).
  { unfold missing_key, variant_keys in Hmiss; cbn [existsb] in Hmiss.
    unfold variant_meta.
    destruct (dict_get d (py "broad")) eqn:E1; [|now left].
    destruct (dict_get d (py "focused")) eqn:E2; [|now right; left].
    destruct (dict_get d (py "method")) eqn:E3; [|now right; right; left].
    discriminate. }
  unfold main_area; cbn [show state]; rewrite Hq.
  destruct d as [|kv d']; [now destruct Hne|]; cbn [truthy].
  match goal with
  | |- context [variant_columns rt sv wd 0 variant_meta ?w1] =>
      destruct (variant_columns_missing wd (kv :: d') variant_meta 0 w1 Hq Hex)
        as (k & Hin & Hnone & Hfail);
      destruct (variant_columns rt sv wd 0 variant_meta w1) as [r w2]
  end.
  exists k; repeat split; [exact Hin|exact Hnone|].
  cbn [fst] in Hfail; now rewrite Hfail.
Qed.

End Runs.


Section Pages.

Variable rt : runtime.
Variable sv : services.

Lemma paper_cards_keeps_session (l : list json) :
  forall w,
    state (snd (paper_cards rt l w)) = state w
    /\ sent (snd (paper_cards rt l w)) = sent w.
Proof.
  induction l as [|p rest IH]; intros w; cbn [paper_cards]; [now split|].
  destruct (render_paper_card rt p); [|now split].
  destruct (IH (show Page (Markdown a) w)) as [-> ->]; now split.
Qed.

(** The cards of the stored papers are shown in order up to the first
    paper whose card fails; that failure ends the run and the papers after
    it are not shown.  When no card fails there is one per paper. *)
Theorem cards_stop_at_first_failure (w : world) :
  (forall l htmls,
      Forall2 (fun p h => render_paper_card rt p = Done h) l htmls ->
      paper_cards rt l w
      = (Done tt,
         mk_world (state w)
                  (screen w ++ map (fun h => (Page, Markdown h)) htmls)
                  (sent w)))
  /\ (forall before p after htmls f,
        Forall2 (fun p h => render_paper_card rt p = Done h) before htmls ->
        render_paper_card rt p = Fail f ->
        paper_cards rt (before ++ p :: after) w
        = (Fail f,
           mk_world (state w)
                    (screen w ++ map (fun h => (Page, Markdown h)) htmls)
                    (sent w))).
Proof.
  split.
  - intros l htmls H; revert w.
    induction H as [|p h l htmls Hp _ IH]; intros w; cbn [paper_cards map].
    + rewrite app_nil_r; now destruct w.
    + rewrite Hp, IH; unfold show; cbn; now rewrite <- app_assoc.
  - intros before p after htmls f H Hf; revert w.
    induction H as [|q h l hs Hq _ IH]; intros w; cbn [paper_cards map app].
    + rewrite Hf, app_nil_r; now destruct w.
    + rewrite Hq, IH; unfold show; cbn; now rewrite <- app_assoc.
Qed.

Lemma last_cons {A : Type} (x d : A) (l : list A) :
  last (x :: l) d = last l x.
Proof.
  revert x d; induction l as [|y l IH]; intros x d; [reflexivity|].
  change (last (x :: y :: l) d) with (last (y :: l) d).
  now rewrite (IH y d), (IH y x).
Qed.

Lemma variant_columns_complete (wd : widgets) (d : dict)
    (meta : list (str * (str * string))) :
  forall idx w,
    queries (state w) = JObj d ->
    Forall (fun m => dict_get d (fst m) <> None) meta ->
    let keys :=
      filter (fun k => variant_btn wd (py "btn_" ++ k)) (map fst meta) in
    let r := variant_columns rt sv wd idx meta w in
    fst r = Done tt
    /\ queries (state (snd r)) = JObj d
    /\ sent (snd r)
       = sent w ++ map (fun k => search_request_of (sec sv) (field d k)) keys
    /\ selected_query (state (snd r))
       = last (map (field d) keys) (selected_query (state w)).
Proof.
  induction meta as [|[key [label css]] rest IH]; intros idx w Hq Hall;
    cbv zeta.
  - cbn; rewrite app_nil_r; now repeat split.
  - inversion Hall as [|? ? Hkey Hrest]; subst; cbn [fst] in Hkey.
    cbn [variant_columns map filter fst]; rewrite Hq; unfold subscript.
    assert (Hf : dict_get d key = Some (field d key)).
    { unfold field; destruct (dict_get d key); [reflexivity|congruence]. }
    rewrite Hf.
    destruct (variant_btn wd (py "btn_" ++ key)).
    + match goal with
      | |- context [variant_columns rt sv wd (S idx) rest
                      (search_into_session rt sv ?p ?q ?w0)] =>
          destruct (search_into_session_effect rt sv p q w0)
            as (Hs & Hqq & Hsel & _);
          destruct (IH (S idx) (search_into_session rt sv p q w0))
            as (H1 & H2 & H3 & H4);
            [rewrite Hqq; exact Hq|exact Hrest|]
      end.
      cbv zeta in *; rewrite H1, H2, H3, H4, Hs, Hsel.
      repeat split.
      * cbn [map]; cbn [show set_state sent]; now rewrite <- app_assoc.
      * cbn [map]; now rewrite last_cons.
    + match goal with
      | |- context [variant_columns rt sv wd (S idx) rest ?w1] =>
          destruct (IH (S idx) w1) as (H1 & H2 & H3 & H4);
            [exact Hq|exact Hrest|]
      end.
      cbv zeta in *; rewrite H1, H2, H3, H4; now repeat split.
Qed.

(** With query variants that hold the three keys, the main area sends one
    search request for each pressed button, in the order of the columns,
    each for the text shown in its card, and none otherwise; the selected
    query is the text of the last pressed button, or stays as it was. *)
Theorem variant_buttons_send_their_queries
    (wd : widgets) (w : world) (d : dict) :
  queries (state w) = JObj d ->
  d <> [] ->
  missing_key (JObj d) = false ->
  let w' := snd (main_area rt sv wd w) in
  sent w'
  = sent w ++ map (fun k => search_request_of (sec sv) (field d k)) (pressed wd)
  /\ selected_query (state w')
     = last (map (field d) (pressed wd)) (selected_query (state w)).
Proof.
  intros Hq Hne Hmiss.
  assert (Hall : Forall (fun m => dict_get d (fst m) <> None) variant_meta).
  { unfold missing_key, variant_keys in Hmiss; cbn [existsb] in Hmiss.
    unfold variant_meta.
    destruct (dict_get d (py "broad")) eqn:E1; [|discriminate].
    destruct (dict_get d (py "focused")) eqn:E2; [|discriminate].
    destruct (dict_get d (py "method")) eqn:E3; [|discriminate].
    repeat constructor; cbn [fst]; congruence. }
  cbv zeta; unfold main_area; cbn [show state]; rewrite Hq.
  destruct d as [|kv d']; [now destruct Hne|]; cbn [truthy].
  match goal with
  | |- context [variant_columns rt sv wd 0 variant_meta ?w1] =>
      destruct (variant_columns_complete wd (kv :: d') variant_meta 0 w1
                  Hq Hall) as (H1 & _ & H3 & H4);
      destruct (variant_columns rt sv wd 0 variant_meta w1) as [r w2]
  end.
  cbv zeta in *; cbn [fst snd] in *; subst r.
  change (filter (fun k => variant_btn wd (py "btn_" ++ k))
                 (map fst variant_meta)) with (pressed wd) in *.
  cbn [sent state] in H3, H4.
  assert (Hshow : forall e v, sent (show Page e v) = sent v
                              /\ state (show Page e v) = state v)
    by (intros; now split).
  destruct (truthy (selected_query (state w2)));
    destruct (papers _) as [l|]; cbn [snd];
    try destruct (length l =? 0)%nat; cbn [snd];
    try (destruct (paper_cards_keeps_session l
           (show Page (Markdown (results_header (length l)))
              (show Page (Markdown (selected_banner rt
                                      (selected_query (state w2)))) w2)))
           as [-> ->]);
    try (destruct (paper_cards_keeps_session l
           (show Page (Markdown (results_header (length l))) w2))
           as [-> ->]);
    cbn [show sent state]; now split.
Qed.

(** A completion that parses to a falsy value (an empty mapping or list,
    null, zero, an empty string) is stored without complaint and the run
    shows no query card and no message: only the spinner and the header. *)
Theorem falsy_variants_show_nothing (wd : widgets) (w : world) (q : json) :
  ai_enabled wd = true ->
  action_btn wd = true ->
  topic wd <> [] ->
  generate_queries (model sv) (topic wd) = Ok q ->
  truthy q = false ->
  run rt sv wd w
  = (Done tt,
     mk_world (mk_session q None JNull)
              (screen w
               ++ [(Page, Spinner (py "Generating queries with Gemini..."));
                   (Page, Markdown hero)])
              (sent w)).
Proof.
  intros Hai Hbtn Htopic Hgen Hq; unfold run, handle_action.
  rewrite Hai, Hbtn, Hgen.
  destruct (topic wd) as [|c t]; [now destruct Htopic|].
  cbn [truthy andb]; unfold main_area, show, set_state.
  cbn [state screen sent queries papers selected_query].
  rewrite Hq; cbn [truthy]; now rewrite <- app_assoc.
Qed.

(** In direct mode, when the search returns a list whose first record
    makes its card fail, the run ends with that failure after the list has
    been stored: the session keeps the papers that cannot be shown. *)
Theorem unrenderable_result_fails_run
    (wd : widgets) (w : world) (p : json) (rest : list json) (f : failure) :
  ai_enabled wd = false ->
  action_btn wd = true ->
  topic wd <> [] ->
  fst (search_papers (sec sv) (net sv) (topic wd) (sent w)) = Ok (p :: rest) ->
  render_paper_card rt p = Fail f ->
  fst (run rt sv wd w) = Fail f
  /\ papers (state (snd (run rt sv wd w))) = Some (p :: rest).
Proof.
  intros Hai Hbtn Htopic Hs Hf; unfold run.
  destruct (direct_search_effect rt sv wd w Hai Hbtn Htopic)
    as (Hq & Hsel & _ & Hp).
  cbv zeta in *; rewrite Hs in Hp.
  unfold main_area; cbn [show state]; rewrite Hq; cbn [truthy].
  cbn [show state]; rewrite Hsel.
  destruct (topic wd) as [|c t]; [now destruct Htopic|].
  cbn [truthy]; cbn [show state]; rewrite Hp.
  cbn [length Nat.eqb paper_cards].
  rewrite Hf; cbn [fst snd show state]; split; [reflexivity|exact Hp].
Qed.

End Pages.


Lemma generation_updates_session_on_success_only_witness :
  handle_action Cases.rt0 (Cases.ai_services Scenario.prose_completion)
                Cases.ask_ai Cases.world0
  = mk_world (state Cases.world0)
      (screen Cases.world0
       ++ [(Page, Spinner (py "Generating queries with Gemini..."));
           (Page, ErrorBox (py "Failed to generate queries: "
                            ++ exn_text Cases.rt0 JSONDecodeError))])
      (sent Cases.world0).
Proof.
  apply (proj1 (generation_updates_session_on_success_only
                  Cases.rt0 (Cases.ai_services Scenario.prose_completion)
                  Cases.ask_ai Cases.world0 eq_refl eq_refl
                  ltac:(vm_compute; discriminate))).
  vm_compute; reflexivity.
Defined.

Lemma direct_search_updates_session_witness :
  queries (state (handle_action Cases.rt0
                    (Cases.search_services 200 Scenario.two_papers_body)
                    Cases.ask_search Cases.world0)) = JNull
  /\ papers (state (handle_action Cases.rt0
                      (Cases.search_services 200 Scenario.two_papers_body)
                      Cases.ask_search Cases.world0))
     = Some [Scenario.paper1].
Proof.
  destruct (direct_search_updates_session
              Cases.rt0 (Cases.search_services 200 Scenario.two_papers_body)
              Cases.ask_search Cases.world0 eq_refl eq_refl
              ltac:(vm_compute; discriminate)) as (Hq & _ & _ & Hp).
  split; [exact Hq|].
  rewrite Hp; vm_compute; reflexivity.
Defined.

Lemma action_is_inert_when_idle_witness :
  handle_action Cases.rt0 (Cases.ai_services Scenario.fenced_completion)
                Cases.idle Cases.world0 = Cases.world0.
Proof.
  apply (proj1 (action_is_inert_when_idle
                  Cases.rt0 (Cases.ai_services Scenario.fenced_completion)
                  Cases.idle Cases.world0)).
  right; reflexivity.
Defined.

Lemma partial_variants_stop_main_area_witness :
  exists k,
    In k variant_keys
    /\ dict_get [(py "broad", JStr (py "x"))] k = None
    /\ fst (main_area Cases.rt0
              (Cases.ai_services Scenario.partial_completion)
              Cases.ask_ai (Cases.session_with Cases.partial_variants))
       = Fail (KeyError k).
Proof.
  apply (partial_variants_stop_main_area
           Cases.rt0 (Cases.ai_services Scenario.partial_completion)
           Cases.ask_ai (Cases.session_with Cases.partial_variants)
           [(py "broad", JStr (py "x"))]).
  - reflexivity.
  - discriminate.
  - vm_compute; reflexivity.
Defined.

Lemma cards_stop_at_first_failure_witness :
  exists h,
    paper_cards Cases.rt0
      ([Scenario.paper1] ++ Cases.nameless_paper :: [Scenario.paper1])
      Cases.world0
    = (Fail (KeyError (py "name")),
       mk_world (state Cases.world0)
                (screen Cases.world0
                 ++ map (fun h => (Page, Markdown h)) [h])
                (sent Cases.world0)).
Proof.
  eexists.
  apply (proj2 (cards_stop_at_first_failure Cases.rt0 Cases.world0)
               [Scenario.paper1] Cases.nameless_paper [Scenario.paper1]).
  - constructor; [vm_compute; reflexivity|constructor].
  - vm_compute; reflexivity.
Defined.

Lemma variant_buttons_send_their_queries_witness :
  sent (snd (main_area Cases.rt0
               (Cases.search_services 200 Scenario.empty_data_body)
               (mk_widgets true [] false (Cases.only_button "btn_focused"))
               (Cases.session_with Scenario.variants)))
  = [search_request_of [] (JStr (py "transformer interpretability"))]
  /\ selected_query
       (state (snd (main_area Cases.rt0
                      (Cases.search_services 200 Scenario.empty_data_body)
                      (mk_widgets true [] false
                                  (Cases.only_button "btn_focused"))
                      (Cases.session_with Scenario.variants))))
     = JStr (py "transformer interpretability").
Proof.
  apply (variant_buttons_send_their_queries
           Cases.rt0 (Cases.search_services 200 Scenario.empty_data_body)
           (mk_widgets true [] false (Cases.only_button "btn_focused"))
           (Cases.session_with Scenario.variants)
           [(py "broad", JStr (py "machine learning"));
            (py "focused", JStr (py "transformer interpretability"));
            (py "method", JStr (py "attention visualization techniques"))]).
  - reflexivity.
  - discriminate.
  - vm_compute; reflexivity.
Defined.

Lemma falsy_variants_show_nothing_witness :
  run Cases.rt0 (Cases.ai_services Scenario.empty_object_completion)
      Cases.ask_ai Cases.world0
  = (Done tt,
     mk_world (mk_session (JObj []) None JNull)
              (screen Cases.world0
               ++ [(Page, Spinner (py "Generating queries with Gemini..."));
                   (Page, Markdown hero)])
              (sent Cases.world0)).
Proof.
  apply (falsy_variants_show_nothing
           Cases.rt0 (Cases.ai_services Scenario.empty_object_completion)
           Cases.ask_ai Cases.world0 (JObj [])).
  - reflexivity.
  - reflexivity.
  - vm_compute; discriminate.
  - vm_compute; reflexivity.
  - reflexivity.
Defined.

Lemma unrenderable_result_fails_run_witness :
  fst (run Cases.rt0 (Cases.search_services 200 Cases.nameless_body)
           Cases.ask_search Cases.world0)
  = Fail (KeyError (py "name"))
  /\ papers (state (snd (run Cases.rt0
                           (Cases.search_services 200 Cases.nameless_body)
                           Cases.ask_search Cases.world0)))
     = Some (Cases.nameless_paper :: []).
Proof.
  apply (unrenderable_result_fails_run
           Cases.rt0 (Cases.search_services 200 Cases.nameless_body)
           Cases.ask_search Cases.world0 Cases.nameless_paper []
           (KeyError (py "name"))).
  - reflexivity.
  - reflexivity.
  - vm_compute; discriminate.
  - vm_compute; reflexivity.
  - vm_compute; reflexivity.
Defined.
